(** * A shallow embedding of the chat session engine of [main.py]

    The socket event handlers ([handle_connect], [handle_disconnect],
    [on_join], [on_leave], [handle_message], [handle_reaction],
    [handle_typing]) are written as programs of a small monad that threads
    the three in-memory dictionaries of the module ([active_users],
    [typing_users], [chat_history]), accumulates the calls made to the
    transport and to the logger, and may end in a Python exception.

    Modelling conventions.
    - A payload is a decoded JSON document, [value].  JSON numbers with a
      fractional part (Python floats) are not represented.
    - A Python [dict] whose iteration order is observable ([active_users]:
      roster order, first matching private-message recipient) is an
      association list in insertion order.  The other dictionaries are
      [gmap]s over hashed keys: no handler iterates over them.
    - A Python [set] of names is a [gset string]; its iteration order is
      not fixed by the language and is a parameter of the engine.
    - [str.strip] is a parameter as well: strings here are byte strings and
      the Unicode notion of whitespace is not fixed by the model.
    - Calls into the transport layer ([emit], [join_room], [leave_room])
      and into the logger are recorded, in order, as [effect]s; they do
      not fail. *)

From stdpp Require Import base strings list gmap.
From Stdlib Require Import ZArith Lia.

#[local] Set Warnings "-clear-no-such-hyp".
#[local] Set Default Proof Using "Type".

Local Open Scope string_scope.
Local Open Scope list_scope.

(** ** Python values *)

(** A decoded event payload. *)
#[warnings="-register-all"]
Inductive value : Type :=
| VNone
| VBool (b : bool)
| VInt (z : Z)
| VStr (s : string)
| VList (l : list value)
| VDict (d : list (string * value)).

(** The built-in exceptions the handlers can run into. *)
Inductive exn : Type :=
| KeyError
| TypeError
| AttributeError
| IndexError
| ValueError.

(** The result of evaluating a Python expression. *)
Definition res (A : Type) : Type := exn + A.

(** Key of a [dict] built from a payload field: [True == 1] and
    [False == 0] hash alike, so a bool is filed under its integer. *)
Inductive hkey : Type :=
| HNone
| HInt (z : Z)
| HStr (s : string).

#[global] Instance hkey_eq_dec : EqDecision hkey.
Proof. solve_decision. Defined.

Definition hkey_enc (k : hkey) : unit + (Z + string) :=
  match k with
  | HNone => inl ()
  | HInt z => inr (inl z)
  | HStr s => inr (inr s)
  end.

Definition hkey_dec (x : unit + (Z + string)) : hkey :=
  match x with
  | inl _ => HNone
  | inr (inl z) => HInt z
  | inr (inr s) => HStr s
  end.

#[global] Instance hkey_countable : Countable hkey.
Proof.
  apply (inj_countable' hkey_enc hkey_dec). by intros [].
Defined.

(** [hash(v)]: lists and dicts are unhashable. *)
Definition py_hash (v : value) : res hkey :=
  match v with
  | VNone => inr HNone
  | VBool b => inr (HInt (Z.b2z b))
  | VInt z => inr (HInt z)
  | VStr s => inr (HStr s)
  | VList _ | VDict _ => inl TypeError
  end.

(** [bool(v)], the truth value tested by [if v] and [not v]. *)
Definition truthy (v : value) : bool :=
  match v with
  | VNone => false
  | VBool b => b
  | VInt z => negb (z =? 0)%Z
  | VStr s => negb (bool_decide (s = ""))
  | VList l => match l with [] => false | _ => true end
  | VDict d => match d with [] => false | _ => true end
  end.

(** [v == s] for a [str] s: only an equal [str] compares equal. *)
Definition eq_str (v : value) (s : string) : bool :=
  match v with
  | VStr t => bool_decide (t = s)
  | _ => false
  end.

(** [v in l] for a list [l] of [str]. *)
Definition py_in (v : value) (l : list string) : bool :=
  existsb (eq_str v) l.

Arguments py_in : simpl never.

(** First binding of a key in an association list. *)
Fixpoint assoc {A : Type} (k : string) (d : list (string * A)) : option A :=
  match d with
  | [] => None
  | (k', a) :: d' => if bool_decide (k' = k) then Some a else assoc k d'
  end.

(** [data[k]] for a [str] k. *)
Definition subscript (data : value) (k : string) : res value :=
  match data with
  | VDict d =>
      match assoc k d with
      | Some v => inr v
      | None => inl KeyError
      end
  | _ => inl TypeError
  end.

(** [data.get(k, default)]: only a dict has the method. *)
Definition dict_get (data : value) (k : string) (default : value) : res value :=
  match data with
  | VDict d =>
      match assoc k d with
      | Some v => inr v
      | None => inr default
      end
  | _ => inl AttributeError
  end.

(** [0 <= v], [v < n] and [l[v]] need an integer; a bool counts as one. *)
Definition as_int (v : value) : res Z :=
  match v with
  | VBool b => inr (Z.b2z b)
  | VInt z => inr z
  | _ => inl TypeError
  end.

(** [l.remove(x)]: drops the first occurrence, [ValueError] without one. *)
Fixpoint list_remove (x : string) (l : list string) : res (list string) :=
  match l with
  | [] => inl ValueError
  | y :: l' =>
      if bool_decide (y = x) then inr l'
      else match list_remove x l' with
           | inr r => inr (y :: r)
           | inl e => inl e
           end
  end.

(** A [str.strip] for byte strings: the ASCII characters Python counts as
    whitespace are the controls 9-13 and 28-31 and the space. *)
Definition is_space (a : Ascii.ascii) : bool :=
  let n := Ascii.nat_of_ascii a in
  ((9 <=? n) && (n <=? 13) || (28 <=? n) && (n <=? 32))%nat.

Fixpoint lstrip (s : string) : string :=
  match s with
  | EmptyString => EmptyString
  | String a s' => if is_space a then lstrip s' else s
  end.

Fixpoint rstrip (s : string) : string :=
  match s with
  | EmptyString => EmptyString
  | String a s' =>
      match rstrip s' with
      | EmptyString => if is_space a then EmptyString else String a EmptyString
      | r => String a r
      end
  end.

Definition strip_ascii (s : string) : string := rstrip (lstrip s).

(** ** Insertion-ordered dictionaries keyed by connection id *)

(** [d[k] = a]: an existing key keeps its place, a new one goes last. *)
Fixpoint od_set {A : Type} (k : string) (a : A) (d : list (string * A))
  : list (string * A) :=
  match d with
  | [] => [(k, a)]
  | (k', a') :: d' =>
      if bool_decide (k' = k) then (k, a) :: d' else (k', a') :: od_set k a d'
  end.

(** [del d[k]]. *)
Fixpoint od_del {A : Type} (k : string) (d : list (string * A))
  : list (string * A) :=
  match d with
  | [] => []
  | (k', a') :: d' =>
      if bool_decide (k' = k) then d' else (k', a') :: od_del k d'
  end.

(** ** Engine state *)

(** An entry of [active_users]: the dict stored under a connection id. *)
Record user_data : Type := {
  u_username : string;
  u_connected_at : string;
  u_room : option value
}.

(** An element of a room's history: the dict appended by [handle_message].
    [m_reactions] maps an emoji to the list of names that reacted. *)
Record message : Type := {
  m_msg : string;
  m_username : string;
  m_timestamp : string;
  m_reactions : gmap hkey (list string)
}.

(** The module-level dictionaries. *)
Record world : Type := {
  active_users : list (string * user_data);
  typing_users : gmap hkey (gset string);
  chat_history : gmap hkey (list message)
}.

Definition set_active_users
    (f : list (string * user_data) → list (string * user_data)) (w : world) : world :=
  {| active_users := f (active_users w);
     typing_users := typing_users w;
     chat_history := chat_history w |}.

Definition set_typing_users
    (f : gmap hkey (gset string) → gmap hkey (gset string)) (w : world) : world :=
  {| active_users := active_users w;
     typing_users := f (typing_users w);
     chat_history := chat_history w |}.

Definition set_chat_history
    (f : gmap hkey (list message) → gmap hkey (list message)) (w : world) : world :=
  {| active_users := active_users w;
     typing_users := typing_users w;
     chat_history := f (chat_history w) |}.

Definition set_room (r : option value) (u : user_data) : user_data :=
  {| u_username := u_username u;
     u_connected_at := u_connected_at u;
     u_room := r |}.

Definition set_reactions (r : gmap hkey (list string)) (m : message) : message :=
  {| m_msg := m_msg m;
     m_username := m_username m;
     m_timestamp := m_timestamp m;
     m_reactions := r |}.

(** The state of a freshly started process. *)
Definition initial : world :=
  {| active_users := []; typing_users := ∅; chat_history := ∅ |}.

(** [Config.CHAT_ROOMS]. *)
Definition CHAT_ROOMS : list string :=
  [ "Open Mic"; "Code & Coffee"; "XP Zone"; "Study Squad";
    "Lo-Fi Corner"; "Meme Stream"; "Wellness Wave" ].

(** ** What a handler asks of the transport and of the logger *)

(** The events the server sends, with the fields of their payloads. *)
Inductive outbound : Type :=
| Ev_active_users (users : list string)
| Ev_status (msg type : string) (room : option value) (timestamp : option string)
| Ev_chat_history (room : value) (messages : list message)
| Ev_message (msg username : string) (room : value) (timestamp : string)
    (reactions : gmap hkey (list string))
| Ev_private_message (msg sender : string) (recipient : value) (timestamp : string)
| Ev_reaction_update (index : value) (reactions : gmap hkey (list string)).

(** [emit(..., broadcast=True)] or [emit(..., room=r)]; a single
    connection is addressed through the room named by its id. *)
Inductive target : Type :=
| Broadcast
| Room (r : value).

Inductive level : Type := INFO | WARNING | ERROR.

(** What is interpolated into a log line. *)
Inductive log_arg : Type :=
| A_str (s : string)
| A_val (v : value)
| A_exn (e : exn).

Inductive effect : Type :=
| Emit (ev : outbound) (to : target)
| Join_room (sid : string) (room : value)
| Leave_room (sid : string) (room : value)
| Log (lvl : level) (text : string) (args : list log_arg).

(** ** The handler monad *)

(** A handler body transforms the dictionaries, appends to the trace of
    effects and either returns or raises.  What was mutated and sent before
    an exception stays mutated and sent. *)
Definition M (A : Type) : Type := world → res A * world * list effect.

#[global] Instance M_ret : MRet M := λ A a w, (inr a, w, []).

#[global] Instance M_bind : MBind M := λ A B f m w,
  match m w with
  | (inl e, w1, o1) => (inl e, w1, o1)
  | (inr a, w1, o1) => let '(r, w2, o2) := f a w1 in (r, w2, o1 ++ o2)
  end.

Definition raise {A : Type} (e : exn) : M A := λ w, (inl e, w, []).

Definition lift {A : Type} (r : res A) : M A := λ w, (r, w, []).

Definition gets {A : Type} (f : world → A) : M A := λ w, (inr (f w), w, []).

Definition modify (f : world → world) : M unit := λ w, (inr (), f w, []).

Definition tell (e : effect) : M unit := λ w, (inr (), w, [e]).

(** [try: body  except Exception as e: handler(e)]. *)
Definition try_except {A : Type} (body : M A) (handler : exn → M A) : M A := λ w,
  match body w with
  | (inl e, w1, o1) => let '(r, w2, o2) := handler e w1 in (r, w2, o1 ++ o2)
  | (inr a, w1, o1) => (inr a, w1, o1)
  end.

Definition emit (ev : outbound) (to : target) : M unit := tell (Emit ev to).

Definition log (lvl : level) (text : string) (args : list log_arg) : M unit :=
  tell (Log lvl text args).

(** ** Requests *)

(** What Flask provides to a handler: [request.sid], the logged-in user
    ([None] for an anonymous one) and the clock. *)
Record ctx : Type := {
  sid : string;
  current_user : option string;
  now : string
}.

(** [current_user.username]: the anonymous user has no such attribute. *)
Definition current_username (c : ctx) : M string :=
  match current_user c with
  | Some u => mret u
  | None => raise AttributeError
  end.

(** [[user['username'] for user in active_users.values()]]. *)
Definition roster (w : world) : list string :=
  map (λ e, u_username e.2) (active_users w).

(** Lines 292-304 of [handle_reaction]: the toggle on the reactions dict
    of one message. *)
Definition toggle (user : string) (emoji : hkey)
    (reactions : gmap hkey (list string)) : res (gmap hkey (list string)) :=
  let reactions1 :=
    if decide (reactions !! emoji = None) then <[emoji := []]> reactions
    else reactions in
  match reactions1 !! emoji with
  | None => inl KeyError
  | Some l =>
      if bool_decide (user ∈ l) then
        match list_remove user l with
        | inl e => inl e
        | inr l' =>
            inr (match l' with
                 | [] => delete emoji reactions1
                 | _ => <[emoji := l']> reactions1
                 end)
        end
      else inr (<[emoji := l ++ [user]]> reactions1)
  end.

(** ** The event handlers *)

Section Engine.

(** [str.strip]. *)
Variable strip : string → string.

(** [list(s)] for a set [s]: the order in which a set is iterated. *)
Variable set_list : gset string → list string.

(** Whatever the order in which a set is iterated, it lists the elements
    of the set, each once. *)
Hypothesis set_list_perm : ∀ X : gset string, set_list X ≡ₚ elements X.

(** Lines 329-337 of [handle_typing]: the status line for the set of
    other people typing. *)
Definition typing_status (users_typing : gset string) : res string :=
  if (size users_typing =? 0)%nat then inr ""
  else if (size users_typing =? 1)%nat then
    match set_list users_typing with
    | u :: _ => inr (u +:+ " is typing...")
    | [] => inl IndexError
    end
  else if (size users_typing =? 2)%nat then
    match set_list users_typing with
    | [u1; u2] => inr (u1 +:+ " and " +:+ u2 +:+ " are typing...")
    | _ => inl ValueError
    end
  else inr "Several people are typing...".

Definition handle_connect (c : ctx) : M value :=
  match current_user c with
  | None =>
      log WARNING "Unauthorized connection attempt rejected" [] ;;
      mret (VBool false)
  | Some username =>
      modify (set_active_users (od_set (sid c)
        {| u_username := username; u_connected_at := now c; u_room := None |})) ;;
      users ← gets roster;
      emit (Ev_active_users users) Broadcast ;;
      log INFO "User connected: " [A_str username] ;;
      mret VNone
  end.

Definition handle_disconnect (c : ctx) : M value :=
  au ← gets active_users;
  match assoc (sid c) au with
  | Some ud =>
      let username := u_username ud in
      modify (set_active_users (od_del (sid c))) ;;
      users ← gets roster;
      emit (Ev_active_users users) Broadcast ;;
      log INFO "User disconnected: " [A_str username] ;;
      mret VNone
  | None => mret VNone
  end.

Definition on_join (c : ctx) (data : value) : M value :=
  try_except
    (username ← current_username c;
     room ← lift (subscript data "room");
     if negb (py_in room CHAT_ROOMS) then
       log WARNING "Invalid room join attempt: " [A_val room] ;;
       mret VNone
     else
       tell (Join_room (sid c) room) ;;
       au ← gets active_users;
       match assoc (sid c) au with
       | None => raise KeyError
       | Some ud =>
           modify (set_active_users (od_set (sid c) (set_room (Some room) ud)))
       end ;;
       emit (Ev_status (username +:+ " has joined the room.") "join"
               None (Some (now c))) (Room room) ;;
       k ← lift (py_hash room);
       h ← gets chat_history;
       match h !! k with
       | Some messages =>
           emit (Ev_chat_history room messages) (Room (VStr (sid c)))
       | None => mret ()
       end ;;
       log INFO "User joined room: " [A_str username; A_val room] ;;
       mret VNone)
    (λ e, log ERROR "Join room error: " [A_exn e] ;; mret VNone).

Definition on_leave (c : ctx) (data : value) : M value :=
  try_except
    (username ← current_username c;
     room ← lift (subscript data "room");
     tell (Leave_room (sid c) room) ;;
     au ← gets active_users;
     match assoc (sid c) au with
     | Some ud =>
         modify (set_active_users (od_set (sid c) (set_room None ud)))
     | None => mret ()
     end ;;
     emit (Ev_status (username +:+ " has left the room.") "leave"
             None (Some (now c))) (Room room) ;;
     log INFO "User left room: " [A_str username; A_val room] ;;
     mret VNone)
    (λ e, log ERROR "Leave room error: " [A_exn e] ;; mret VNone).

(** [v.strip()]: a method of [str] only. *)
Definition py_strip (v : value) : res string :=
  match v with
  | VStr s => inr (strip s)
  | _ => inl AttributeError
  end.

Definition handle_message (c : ctx) (data : value) : M value :=
  try_except
    (username ← current_username c;
     room ← lift (dict_get data "room" (VStr "General"));
     msg_type ← lift (dict_get data "type" (VStr "message"));
     raw ← lift (dict_get data "msg" (VStr ""));
     message ← lift (py_strip raw);
     if bool_decide (message = "") then mret VNone
     else
       let timestamp := now c in
       if eq_str msg_type "private" then
         target_user ← lift (dict_get data "target" VNone);
         if negb (truthy target_user) then mret VNone
         else
           au ← gets active_users;
           match find (λ e, eq_str target_user (u_username e.2)) au with
           | Some (s, _) =>
               emit (Ev_private_message message username target_user timestamp)
                 (Room (VStr s)) ;;
               log INFO "Private message sent: " [A_str username; A_val target_user] ;;
               mret VNone
           | None =>
               log WARNING "Private message failed - user not found: "
                 [A_val target_user] ;;
               mret VNone
           end
       else
         if negb (py_in room CHAT_ROOMS) then
           log WARNING "Message to invalid room: " [A_val room] ;;
           mret VNone
         else
           k ← lift (py_hash room);
           h ← gets chat_history;
           (if decide (h !! k = None)
            then modify (set_chat_history <[k := []]>)
            else mret ()) ;;
           h ← gets chat_history;
           match h !! k with
           | None => raise KeyError
           | Some messages =>
               modify (set_chat_history <[k := messages ++
                 [ {| m_msg := message; m_username := username;
                      m_timestamp := timestamp; m_reactions := ∅ |} ] ]>)
           end ;;
           emit (Ev_message message username room timestamp ∅) (Room room) ;;
           log INFO "Message sent: " [A_val room; A_str username] ;;
           mret VNone)
    (λ e, log ERROR "Message handling error: " [A_exn e] ;; mret VNone).

Definition handle_reaction (c : ctx) (data : value) : M value :=
  try_except
    (room ← lift (subscript data "room");
     msg_index ← lift (subscript data "index");
     emoji ← lift (subscript data "emoji");
     user ← current_username c;
     k ← lift (py_hash room);
     h ← gets chat_history;
     match h !! k with
     | None => mret VNone
     | Some messages =>
         i ← lift (as_int msg_index);
         if bool_decide (0 ≤ i)%Z && bool_decide (i < Z.of_nat (length messages))%Z
         then
           match messages !! Z.to_nat i with
           | None => raise IndexError
           | Some message =>
               e ← lift (py_hash emoji);
               reactions ← lift (toggle user e (m_reactions message));
               modify (set_chat_history
                 <[k := <[Z.to_nat i := set_reactions reactions message]> messages]>) ;;
               emit (Ev_reaction_update msg_index reactions) (Room room) ;;
               mret VNone
           end
         else mret VNone
     end)
    (λ e, log ERROR "Reaction handling error: " [A_exn e] ;; mret VNone).

Definition handle_typing (c : ctx) (data : value) : M value :=
  username ← current_username c;
  room ← lift (subscript data "room");
  typing ← lift (subscript data "typing");
  k ← lift (py_hash room);
  t ← gets typing_users;
  (if decide (t !! k = None)
   then modify (set_typing_users <[k := ∅]>)
   else mret ()) ;;
  t ← gets typing_users;
  match t !! k with
  | None => raise KeyError
  | Some s =>
      modify (set_typing_users
        <[k := if truthy typing then s ∪ {[username]} else s ∖ {[username]}]>)
  end ;;
  t ← gets typing_users;
  match t !! k with
  | None => raise KeyError
  | Some s =>
      let users_typing := s ∖ {[username]} in
      msg ← lift (typing_status users_typing);
      emit (Ev_status msg "typing" (Some room) None) (Room room) ;;
      mret VNone
  end.

(** ** The router *)

(** The inbound events with their payloads. *)
Inductive event : Type :=
| Connect
| Disconnect
| Join (data : value)
| Leave (data : value)
| Message (data : value)
| React_to_message (data : value)
| Typing (data : value).

Definition handle (c : ctx) (ev : event) : M value :=
  match ev with
  | Connect => handle_connect c
  | Disconnect => handle_disconnect c
  | Join data => on_join c data
  | Leave data => on_leave c data
  | Message data => handle_message c data
  | React_to_message data => handle_reaction c data
  | Typing data => handle_typing c data
  end.

(** The dictionaries after one event, whether its handler returned or
    raised. *)
Definition step (w : world) (i : ctx * event) : world :=
  (handle i.1 i.2 w).1.2.

(** The effects of one event. *)
Definition effects (w : world) (i : ctx * event) : list effect :=
  (handle i.1 i.2 w).2.

(** The outcome of one event: what the handler returned or raised. *)
Definition outcome (w : world) (i : ctx * event) : res value :=
  (handle i.1 i.2 w).1.1.

(** The dictionaries after a sequence of events. *)
Definition run (w : world) (evs : list (ctx * event)) : world :=
  foldl step w evs.

(** The states a process can be in. *)
Definition reachable (w : world) : Prop :=
  ∃ evs, w = run initial evs.

(** ** Observations *)

(** The outbound events among the effects of a handler, in order, each
    with its addressee. *)
Definition emitted (out : list effect) : list (outbound * target) :=
  omap (λ e, match e with Emit ev to => Some (ev, to) | _ => None end) out.

(** Nothing but log lines: no event sent, no room joined or left. *)
Definition only_logs (out : list effect) : bool :=
  forallb (λ e, match e with Log _ _ _ => true | _ => false end) out.

(** The history of a room; a room without an entry has none. *)
Definition history (w : world) (k : hkey) : list message :=
  default [] (chat_history w !! k).

(** What a message says, by whom and when: all of it but the reactions. *)
Definition content (m : message) : string * string * string :=
  (m_msg m, m_username m, m_timestamp m).

(** The names recorded for an emoji on the message at an index. *)
Definition reactors (w : world) (k : hkey) (i : nat) (e : hkey) : list string :=
  match history w k !! i with
  | Some m => default [] (m_reactions m !! e)
  | None => []
  end.

(** Some connection is registered under the name [target]. *)
Definition registered (w : world) (target : value) : bool :=
  existsb (λ e, eq_str target (u_username e.2)) (active_users w).

(** What a well-formed reaction request asks for: who toggles, in which
    room, at which index, which emoji. *)
Definition reaction_request (c : ctx) (data : value)
  : option (string * hkey * Z * hkey) :=
  match subscript data "room", subscript data "index", subscript data "emoji",
        current_user c with
  | inr room, inr msg_index, inr emoji, Some user =>
      match py_hash room, as_int msg_index, py_hash emoji with
      | inr k, inr i, inr e => Some (user, k, i, e)
      | _, _, _ => None
      end
  | _, _, _, _ => None
  end.

(** The state change of a toggle by [u] in room [k] at index [i] on [e]. *)
Definition react (u : string) (k : hkey) (i : Z) (e : hkey) (w : world) : world :=
  match chat_history w !! k with
  | Some messages =>
      if bool_decide (0 ≤ i)%Z && bool_decide (i < Z.of_nat (length messages))%Z then
        match messages !! Z.to_nat i with
        | Some m =>
            match toggle u e (m_reactions m) with
            | inr r =>
                set_chat_history
                  <[k := <[Z.to_nat i := set_reactions r m]> messages]> w
            | inl _ => w
            end
        | None => w
        end
      else w
  | None => w
  end.

(** What an event does to the message at index [n] of room [k]. *)
Definition touch (i : ctx * event) (k : hkey) (n : nat) (m : message) : message :=
  match i.2 with
  | React_to_message data =>
      match reaction_request i.1 data with
      | Some (u, k0, i0, e) =>
          if decide (k = k0 ∧ Z.of_nat n = i0) then
            match toggle u e (m_reactions m) with
            | inr r => set_reactions r m
            | inl _ => m
            end
          else m
      | None => m
      end
  | _ => m
  end.

(** No message of any history has an emoji with an empty list of names. *)
Definition no_empty_reactions (w : world) : Prop :=
  ∀ k n m e, history w k !! n = Some m → m_reactions m !! e ≠ Some [].

(** Who toggles emoji [e] on message [n] of room [k] with this event, if
    it is a well-formed reaction request for that message and emoji. *)
Definition toggler (i : ctx * event) (k : hkey) (n : nat) (e : hkey) : option string :=
  match i.2 with
  | React_to_message data =>
      match reaction_request i.1 data with
      | Some (u, k0, i0, e0) =>
          if bool_decide (k0 = k ∧ i0 = Z.of_nat n ∧ e0 = e) then Some u else None
      | None => None
      end
  | _ => None
  end.

(** How many events of a sequence are toggles by [u] of emoji [e] on
    message [n] of room [k]. *)
Definition toggles_by (u : string) (k : hkey) (n : nat) (e : hkey)
    (evs : list (ctx * event)) : nat :=
  length (filter (λ i, toggler i k n e = Some u) evs).

(** The policy for the status line, by the number of other people typing:
    nobody, one, two in either order, three or more. *)
Definition status_policy (others : gset string) (msg : string) : Prop :=
  (size others = 0%nat → msg = "")
  ∧ (size others = 1%nat →
     ∃ n, others = {[n]} ∧ msg = n +:+ " is typing...")
  ∧ (size others = 2%nat →
     ∃ n1 n2, n1 ≠ n2 ∧ others = {[n1; n2]}
              ∧ msg = n1 +:+ " and " +:+ n2 +:+ " are typing...")
  ∧ ((3 ≤ size others)%nat → msg = "Several people are typing...").

(** ** A scenario to evaluate the engine on *)

Definition alice : ctx := {| sid := "c1"; current_user := Some "alice"; now := "10:00" |}.

Definition bob : ctx := {| sid := "c2"; current_user := Some "bob"; now := "10:01" |}.

Definition carol : ctx := {| sid := "c3"; current_user := Some "carol"; now := "10:02" |}.

Definition join_open_mic : value := VDict [("room", VStr "Open Mic")].

Definition say_hi : value := VDict [("room", VStr "Open Mic"); ("msg", VStr " hi ")].

Definition thumbs_up : value :=
  VDict [("room", VStr "Open Mic"); ("index", VInt 0); ("emoji", VStr "+1")].

Definition start_typing : value :=
  VDict [("room", VStr "Open Mic"); ("typing", VBool true)].

Definition whisper_to_zed : value :=
  VDict [("type", VStr "private"); ("target", VStr "zed"); ("msg", VStr "psst")].

(** Alice and Bob connect, Alice joins Open Mic and says hi, Carol
    reacts to that message. *)
Definition scenario : list (ctx * event) :=
  [ (alice, Connect); (bob, Connect); (alice, Join join_open_mic);
    (alice, Message say_hi); (carol, React_to_message thumbs_up) ].

(** ** Accounts

    The routes [signup] and [login] over the table of users.  The table is
    the list of its rows in the order they were added; the hasher is a
    record of the two functions the routes call, its check taken not to
    fail; a route gives its answer or its fault, and the messages it
    flashes. *)

(** A row of the table of users. *)
Record User : Type := {
  acc_id : Z;
  acc_username : string;
  acc_email : string;
  acc_password_hash : string
}.

(** What the account routes read of a request: its method and its form
    fields. *)
Record request : Type := {
  method : string;
  form : list (string * string)
}.

(** What a route answers with. *)
Inductive response : Type :=
| Redirect (endpoint : string)
| Render (template : string).

(** The two functions of the password hasher the routes call:
    [bcrypt.generate_password_hash], with the salt it draws as an argument,
    and [bcrypt.check_password_hash]. *)
Record Bcrypt : Type := {
  generate_password_hash : string → string → res string;
  check_password_hash : string → string → bool
}.

(** A password passes the check against a hash made of it. *)
Definition bcrypt_sound (bcrypt : Bcrypt) : Prop :=
  ∀ salt password h,
    generate_password_hash bcrypt salt password = inr h →
    check_password_hash bcrypt h password = true.

(** A hasher to evaluate the routes with: it ignores the salt, and the
    hash is the password behind a dollar sign. *)
Definition plain_bcrypt : Bcrypt :=
  {| generate_password_hash := λ salt password, inr ("$" +:+ password);
     check_password_hash := λ h password, bool_decide (h = "$" +:+ password) |}.

(** [request.form[k]]; a missing field is a [KeyError] (a bad request). *)
Definition form_get (req : request) (k : string) : res string :=
  match assoc k (form req) with
  | Some v => inr v
  | None => inl KeyError
  end.

(** [User.query.filter_by(username=username).first()]. *)
Definition first_by_username (username : string) (db : list User) : option User :=
  find (λ u, bool_decide (acc_username u = username)) db.

(** [User.query.filter_by(email=email).first()]. *)
Definition first_by_email (email : string) (db : list User) : option User :=
  find (λ u, bool_decide (acc_email u = email)) db.

(** The key the table gives to a new row: one more than the largest. *)
Definition next_id (db : list User) : Z :=
  (foldr Z.max 0 (map acc_id db) + 1)%Z.

(** The route [signup]: the answer or the fault, the table afterwards and
    the messages flashed. *)
Definition signup (bcrypt : Bcrypt) (salt : string) (req : request) (db : list User)
  : res response * list User * list string :=
  if bool_decide (method req = "POST") then
    match form_get req "username" with
    | inl e => (inl e, db, [])
    | inr raw_username =>
        let username := strip raw_username in
        match form_get req "email" with
        | inl e => (inl e, db, [])
        | inr raw_email =>
            let email := strip raw_email in
            match form_get req "password" with
            | inl e => (inl e, db, [])
            | inr password =>
                match first_by_username username db with
                | Some _ =>
                    (inr (Redirect "signup"), db, ["Username already exists"])
                | None =>
                    match first_by_email email db with
                    | Some _ =>
                        (inr (Redirect "signup"), db, ["Email already registered"])
                    | None =>
                        match generate_password_hash bcrypt salt password with
                        | inl e => (inl e, db, [])
                        | inr h =>
                            (inr (Redirect "login"),
                             db ++ [ {| acc_id := next_id db;
                                        acc_username := username;
                                        acc_email := email;
                                        acc_password_hash := h |} ],
                             ["Account created! Please log in."])
                        end
                    end
                end
            end
        end
    end
  else (inr (Render "signup.html"), db, []).

(** The route [login]: the answer or the fault, the user logged in if any,
    and the messages flashed. *)
Definition login (bcrypt : Bcrypt) (req : request) (db : list User)
  : res response * option User * list string :=
  if bool_decide (method req = "POST") then
    match form_get req "email" with
    | inl e => (inl e, None, [])
    | inr raw_email =>
        let email := strip raw_email in
        match form_get req "password" with
        | inl e => (inl e, None, [])
        | inr password =>
            match first_by_email email db with
            | Some user =>
                if check_password_hash bcrypt (acc_password_hash user) password
                then (inr (Redirect "index"), Some user, [])
                else (inr (Redirect "login"), None, ["Invalid email or password"])
            | None => (inr (Redirect "login"), None, ["Invalid email or password"])
            end
        end
    end
  else (inr (Render "login.html"), None, []).

(** Two requests to evaluate the account routes on. *)
Definition signup_request : request :=
  {| method := "POST";
     form := [("username", " dana "); ("email", "dana@example.org");
              ("password", "s3cret")] |}.

Definition login_request : request :=
  {| method := "POST";
     form := [("email", "dana@example.org"); ("password", "s3cret")] |}.

(** ** Running the monad *)

Ltac unfold_m :=
  unfold step, effects, outcome, handle, handle_connect, handle_disconnect,
    on_join, on_leave, handle_message, handle_reaction, handle_typing,
    current_username, try_except, emit, log, tell, modify, gets, lift, raise,
    mbind, mret, M_bind, M_ret in *;
  simpl in *.

(** ** Joining a room that does not exist *)

(** C5. A join whose room is not in the catalog changes none of the
    dictionaries, returns normally and sends nothing: its only effect is a
    log line. *)
Theorem join_invalid_room_no_effect (c : ctx) (data room : value) (w : world) :
  subscript data "room" = inr room →
  py_in room CHAT_ROOMS = false →
  step w (c, Join data) = w
  ∧ outcome w (c, Join data) = inr VNone
  ∧ emitted (effects w (c, Join data)) = []
  ∧ only_logs (effects w (c, Join data)) = true.
Proof.
  intros Hroom Hcat. unfold_m. rewrite Hroom. simpl. rewrite Hcat.
  destruct (current_user c); simpl; done.
Qed.

(** ** Private messages to nobody *)

(** C7. A private message whose target names no registered connection
    changes none of the dictionaries, returns normally and sends nothing. *)
Theorem private_message_unknown_target (c : ctx) (data target : value) (w : world) :
  dict_get data "type" (VStr "message") = inr (VStr "private") →
  dict_get data "target" VNone = inr target →
  registered w target = false →
  step w (c, Message data) = w
  ∧ outcome w (c, Message data) = inr VNone
  ∧ emitted (effects w (c, Message data)) = []
  ∧ only_logs (effects w (c, Message data)) = true.
Proof.
  intros Hty Htg Hno.
  assert (find (λ e, eq_str target (u_username e.2)) (active_users w) = None) as Hfind.
  { destruct (find _ _) as [e|] eqn:Hf; [|done].
    apply find_some in Hf as [Hin Heq]. unfold registered in Hno.
    assert (existsb (λ e, eq_str target (u_username e.2)) (active_users w) = true)
      as Hyes by (apply existsb_exists; eauto).
    congruence. }
  unfold_m. rewrite Hty, Htg. simpl.
  destruct (current_user c); simpl; [|done].
  destruct (dict_get data "room" _); simpl; [done|].
  destruct (dict_get data "msg" _) as [|raw]; simpl; [done|].
  destruct raw; simpl; try done.
  case_bool_decide; simpl; [done|].
  destruct (truthy target); simpl; [|done].
  rewrite Hfind. done.
Qed.

(** ** Messages without a room *)

Lemma eq_str_true (v : value) (s : string) : eq_str v s = true ↔ v = VStr s.
Proof.
  destruct v; simpl; try (split; [done|intros; discriminate]).
  rewrite bool_decide_eq_true. split; congruence.
Qed.

Lemma eq_str_false (v : value) (s : string) : v ≠ VStr s → eq_str v s = false.
Proof.
  intros Hne. destruct (eq_str v s) eqn:Heq; [|done].
  by apply eq_str_true in Heq.
Qed.

(** C10. A message that is not private and whose payload has no room goes
    to the room General, which the catalog does not have: the history is
    left as it was and nothing is sent, whatever the text and the sender. *)
Theorem message_without_room_dropped (c : ctx) (d : list (string * value)) (w : world) :
  assoc "room" d = None →
  dict_get (VDict d) "type" (VStr "message") ≠ inr (VStr "private") →
  dict_get (VDict d) "room" (VStr "General") = inr (VStr "General")
  ∧ py_in (VStr "General") CHAT_ROOMS = false
  ∧ step w (c, Message (VDict d)) = w
  ∧ outcome w (c, Message (VDict d)) = inr VNone
  ∧ emitted (effects w (c, Message (VDict d))) = []
  ∧ only_logs (effects w (c, Message (VDict d))) = true.
Proof.
  intros Hroom Hty. split; [by simpl; rewrite Hroom|]. split; [done|].
  unfold_m. rewrite Hroom. simpl.
  destruct (current_user c); simpl; [|done].
  assert (eq_str (default (VStr "message") (assoc "type" d)) "private" = false) as Hnp.
  { apply eq_str_false. intros Heq. apply Hty.
    destruct (assoc "type" d); simpl in *; by subst. }
  destruct (assoc "type" d) as [ty|]; simpl in *.
  - destruct (assoc "msg" d) as [raw|]; simpl.
    + destruct raw; simpl; try done.
      case_bool_decide; simpl; [done|]. rewrite Hnp. done.
    + case_bool_decide; simpl; [done|]. rewrite Hnp. done.
  - destruct (assoc "msg" d) as [raw|]; simpl.
    + destruct raw; simpl; try done.
      case_bool_decide; simpl; done.
    + case_bool_decide; simpl; done.
Qed.

(** ** Disconnecting twice *)

Lemma assoc_od_del {A : Type} (k : string) (d : list (string * A)) :
  NoDup d.*1 → assoc k (od_del k d) = None.
Proof.
  induction d as [|[k' a] d IH]; simpl; [done|].
  intros [Hk Hd]%NoDup_cons. case_bool_decide as Hkk; simpl.
  - subst. clear IH. induction d as [|[k'' a''] d IH]; simpl; [done|].
    simpl in Hk. apply not_elem_of_cons in Hk as [Hne Hk].
    rewrite bool_decide_eq_false_2 by done.
    apply NoDup_cons in Hd as [_ Hd]. by apply IH.
  - rewrite bool_decide_eq_false_2 by done. by apply IH.
Qed.

Lemma assoc_od_del_split {A : Type} (k : string) (a : A) (d : list (string * A)) :
  assoc k d = Some a →
  ∃ d1 d2, d = d1 ++ (k, a) :: d2 ∧ od_del k d = d1 ++ d2.
Proof.
  induction d as [|[k' a'] d IH]; simpl; [done|].
  case_bool_decide as Hkk.
  - intros [= ->]. subst. by exists [], d.
  - intros (d1 & d2 & -> & Hdel)%IH. exists ((k', a') :: d1), d2.
    by rewrite Hdel.
Qed.

(** C8. The first disconnect of a connection takes its entry, and with it
    one occurrence of its name, out of the roster; a second one finds no
    entry, changes nothing, sends nothing and does not fail. *)
Theorem disconnect_idempotent (c : ctx) (w : world) :
  NoDup (active_users w).*1 →
  let w1 := step w (c, Disconnect) in
  let w2 := step w1 (c, Disconnect) in
  outcome w (c, Disconnect) = inr VNone
  ∧ outcome w1 (c, Disconnect) = inr VNone
  ∧ assoc (sid c) (active_users w1) = None
  ∧ (∀ ud, assoc (sid c) (active_users w) = Some ud →
       ∃ l1 l2, roster w = l1 ++ u_username ud :: l2 ∧ roster w1 = l1 ++ l2)
  ∧ w2 = w1
  ∧ roster w2 = roster w1
  ∧ effects w1 (c, Disconnect) = [].
Proof.
  intros Hnd w1 w2.
  assert (assoc (sid c) (active_users w1) = None) as Hgone.
  { subst w1. unfold_m.
    destruct (assoc (sid c) (active_users w)) eqn:Hin; simpl; [|done].
    by apply assoc_od_del. }
  assert (w2 = w1) as Hsame.
  { subst w2. unfold_m. by rewrite Hgone. }
  split_and!.
  - unfold_m. by destruct (assoc (sid c) (active_users w)).
  - unfold_m. by rewrite Hgone.
  - done.
  - intros ud Hud. subst w1. unfold_m. rewrite Hud. simpl.
    apply assoc_od_del_split in Hud as (d1 & d2 & Hd & Hdel).
    exists (map (λ e, u_username e.2) d1), (map (λ e, u_username e.2) d2).
    unfold roster. simpl. rewrite Hdel, Hd, !map_app. done.
  - done.
  - by rewrite Hsame.
  - unfold_m. by rewrite Hgone.
Qed.

(** ** The reaction toggle *)

Lemma list_remove_spec (x : string) (l : list string) :
  x ∈ l →
  ∃ l', list_remove x l = inr l'
        ∧ length l = S (length l')
        ∧ (NoDup l → NoDup l' ∧ ∀ y, y ∈ l' ↔ y ∈ l ∧ y ≠ x).
Proof.
  clear strip.
  induction l as [|y l IH]; simpl; [by intros ?%elem_of_nil|].
  intros Hin. case_bool_decide as Hyx.
  - subst. exists l. split_and!; [done..|].
    intros [Hx Hl]%NoDup_cons. split; [done|]. intros z.
    rewrite elem_of_cons. split; [|naive_solver].
    intros Hz. split; [by right|]. by intros ->.
  - apply elem_of_cons in Hin as [->|Hin]; [done|].
    destruct (IH Hin) as (l' & -> & Hlen & Hnd). exists (y :: l').
    split_and!; [done|by rewrite Hlen|].
    intros [Hy Hl]%NoDup_cons. destruct (Hnd Hl) as [Hnd' Hmem]. split.
    + apply NoDup_cons. split; [|done]. rewrite Hmem. naive_solver.
    + intros z. rewrite !elem_of_cons, Hmem. naive_solver.
Qed.

(** The toggle never fails; it leaves the other emojis alone; on the
    emoji itself it flips the membership of the user and of nobody else,
    and never leaves an empty list behind. *)
Lemma toggle_spec (u : string) (e : hkey) (r : gmap hkey (list string)) :
  ∃ r', toggle u e r = inr r'
        ∧ (∀ e', e' ≠ e → r' !! e' = r !! e')
        ∧ r' !! e ≠ Some []
        ∧ (NoDup (default [] (r !! e)) →
           NoDup (default [] (r' !! e))
           ∧ ∀ y, y ∈ default [] (r' !! e) ↔
                  if decide (y = u) then y ∉ default [] (r !! e)
                  else y ∈ default [] (r !! e)).
Proof.
  clear strip set_list_perm set_list.
  unfold toggle. case_decide as Hnone.
  - rewrite lookup_insert_eq. rewrite bool_decide_eq_false_2 by apply not_elem_of_nil.
    eexists. split; [done|]. rewrite Hnone. simpl. split_and!.
    + intros e' Hne. by rewrite !lookup_insert_ne.
    + by rewrite lookup_insert_eq.
    + intros _. rewrite lookup_insert_eq. simpl. split; [apply NoDup_singleton|].
      intros y. rewrite list_elem_of_singleton. case_decide; [|set_solver].
      split; [intros _; apply not_elem_of_nil|done].
  - destruct (r !! e) as [l|] eqn:Hl; [|done]. simpl. case_bool_decide as Hin.
    + destruct (list_remove_spec u l Hin) as (l' & -> & Hlen & Hnd).
      eexists. split; [done|]. split_and!.
      * intros e' Hne. destruct l'; [by rewrite lookup_delete_ne|by rewrite lookup_insert_ne].
      * destruct l'; [by rewrite lookup_delete_eq|by rewrite lookup_insert_eq].
      * intros Hndl. destruct (Hnd Hndl) as [Hnd' Hmem].
        assert (default [] ((match l' with
                             | [] => delete e r
                             | _ :: _ => <[e:=l']> r
                             end) !! e) = l') as ->.
        { destruct l'; [by rewrite lookup_delete_eq|by rewrite lookup_insert_eq]. }
        split; [done|]. intros y. rewrite Hmem. case_decide; naive_solver.
    + eexists. split; [done|]. split_and!.
      * intros e' Hne. by rewrite lookup_insert_ne.
      * rewrite lookup_insert_eq. by destruct l.
      * intros Hndl. rewrite lookup_insert_eq. simpl. split.
        -- apply NoDup_app. split_and!; [done| |apply NoDup_singleton].
           intros y Hy ->%list_elem_of_singleton. done.
        -- intros y. rewrite elem_of_app, list_elem_of_singleton.
           case_decide; naive_solver.
Qed.

Lemma step_react (c : ctx) (data : value) (w : world) :
  step w (c, React_to_message data) =
  match reaction_request c data with
  | Some (u, k, i, e) => react u k i e w
  | None => w
  end.
Proof.
  unfold reaction_request, react. unfold_m.
  destruct (subscript data "room") as [|room]; simpl; [done|].
  destruct (subscript data "index") as [|msg_index]; simpl; [done|].
  destruct (subscript data "emoji") as [|emoji]; simpl; [done|].
  destruct (current_user c) as [user|]; simpl; [|done].
  destruct (py_hash room) as [|k]; simpl; [done|].
  destruct (chat_history w !! k) as [messages|] eqn:Hk; simpl.
  - destruct (as_int msg_index) as [|i]; simpl; [done|].
    destruct (bool_decide (0 ≤ i)%Z && _) eqn:Hrange; simpl.
    + destruct (messages !! Z.to_nat i) as [m|] eqn:Hm; simpl.
      * destruct (py_hash emoji) as [|e]; simpl; [done|].
        rewrite Hk, Hrange, Hm.
        destruct (toggle user e (m_reactions m)); simpl; done.
      * destruct (py_hash emoji); simpl; [done|]. by rewrite Hk, Hrange, Hm.
    + destruct (py_hash emoji); simpl; [done|]. by rewrite Hk, Hrange.
  - destruct (as_int msg_index); simpl; [done|].
    destruct (py_hash emoji); simpl; [done|]. by rewrite Hk.
Qed.

(** ** How one event changes the histories *)

(** Only messages and reactions write to [chat_history]. *)
Lemma step_history_frame (c : ctx) (ev : event) (w : world) :
  match ev with
  | Message _ | React_to_message _ => False
  | _ => True
  end →
  chat_history (step w (c, ev)) = chat_history w.
Proof.
  destruct ev; try done; intros _; unfold_m.
  - by destruct (current_user c).
  - by destruct (assoc (sid c) (active_users w)).
  - destruct (current_user c); simpl; [|done].
    destruct (subscript data "room") as [|room]; simpl; [done|].
    destruct (py_in room CHAT_ROOMS); simpl; [|done].
    destruct (assoc (sid c) (active_users w)); simpl; [|done].
    destruct (py_hash room) as [|k]; simpl; [done|].
    by destruct (chat_history w !! k).
  - destruct (current_user c); simpl; [|done].
    destruct (subscript data "room") as [|room]; simpl; [done|].
    by destruct (assoc (sid c) (active_users w)).
  - destruct (current_user c); simpl; [|done].
    destruct (subscript data "room") as [|room]; simpl; [done|].
    destruct (subscript data "typing") as [|typing]; simpl; [done|].
    destruct (py_hash room) as [|k]; simpl; [done|].
    case_decide as Hk; simpl.
    + rewrite lookup_insert_eq. simpl. rewrite lookup_insert_eq. simpl.
      by destruct (typing_status _).
    + destruct (typing_users w !! k); simpl; [|done].
      rewrite lookup_insert_eq. simpl. by destruct (typing_status _).
Qed.

(** A message event leaves the histories alone or appends one message,
    without reactions, to one room. *)
Lemma step_message (c : ctx) (data : value) (w : world) :
  chat_history (step w (c, Message data)) = chat_history w
  ∨ ∃ k m, m_reactions m = ∅
           ∧ chat_history (step w (c, Message data))
             = <[k := history w k ++ [m]]> (chat_history w).
Proof.
  unfold history. unfold_m.
  destruct (current_user c); simpl; [|by left].
  destruct (dict_get data "room" _) as [|room]; simpl; [by left|].
  destruct (dict_get data "type" _) as [|msg_type]; simpl; [by left|].
  destruct (dict_get data "msg" _) as [|raw]; simpl; [by left|].
  destruct (py_strip raw) as [|message]; simpl; [by left|].
  case_bool_decide; simpl; [by left|].
  destruct (eq_str msg_type "private"); simpl.
  - destruct (dict_get data "target" _) as [|target_user]; simpl; [by left|].
    destruct (truthy target_user); simpl; [|by left].
    destruct (find _ _) as [[? ?]|]; simpl; by left.
  - destruct (py_in room CHAT_ROOMS); simpl; [|by left].
    destruct (py_hash room) as [|k]; simpl; [by left|].
    case_decide as Hk; simpl.
    + rewrite lookup_insert_eq. simpl. right. exists k. eexists.
      split; [|rewrite Hk, insert_insert_eq; simpl; reflexivity]. done.
    + destruct (chat_history w !! k) eqn:Hk'; [|done]. simpl.
      right. exists k. rewrite Hk'. eexists. split; [|reflexivity]. done.
Qed.

Lemma react_lookup_Some u k0 i0 e0 w k n m :
  history w k !! n = Some m →
  history (react u k0 i0 e0 w) k !! n
  = Some (if decide (k = k0 ∧ Z.of_nat n = i0) then
            match toggle u e0 (m_reactions m) with
            | inr r => set_reactions r m
            | inl _ => m
            end
          else m).
Proof.
  intros Hm. unfold react.
  destruct (chat_history w !! k0) as [messages|] eqn:Hk0.
  2:{ destruct (decide (k = k0 ∧ Z.of_nat n = i0)) as [Hd|Hd]; [|done]. destruct Hd as [-> _].
      unfold history in Hm. by rewrite Hk0 in Hm. }
  destruct (bool_decide (0 ≤ i0)%Z && _) eqn:Hrange.
  2:{ destruct (decide (k = k0 ∧ Z.of_nat n = i0)) as [Hd|Hd]; [|done]. destruct Hd as [-> <-].
      unfold history in Hm. rewrite Hk0 in Hm. simpl in Hm.
      apply lookup_lt_Some in Hm.
      apply andb_false_iff in Hrange as [Hr|Hr];
        apply bool_decide_eq_false in Hr; lia. }
  destruct (messages !! Z.to_nat i0) as [m0|] eqn:Hm0.
  2:{ destruct (decide (k = k0 ∧ Z.of_nat n = i0)) as [Hd|Hd]; [|done]. destruct Hd as [-> <-].
      unfold history in Hm. rewrite Hk0 in Hm. simpl in Hm.
      rewrite Nat2Z.id in Hm0. congruence. }
  destruct (toggle_spec u e0 (m_reactions m0)) as (r & Hr & _).
  rewrite Hr. unfold history in *. simpl.
  destruct (decide (k = k0)) as [->|Hk].
  - rewrite lookup_insert_eq. rewrite Hk0 in Hm. simpl in *.
    destruct (decide (Z.of_nat n = i0)) as [<-|Hn].
    + rewrite Nat2Z.id in *. rewrite decide_True by done.
      rewrite list_lookup_insert_eq by (by eapply lookup_lt_Some).
      simplify_eq. by rewrite Hr.
    + rewrite decide_False by naive_solver.
      rewrite list_lookup_insert_ne; [done|]. intros <-.
      apply andb_true_iff in Hrange as [Hr1%bool_decide_eq_true _]. lia.
  - rewrite lookup_insert_ne by done. rewrite decide_False by naive_solver. done.
Qed.

Lemma react_length u k0 i0 e0 w k :
  length (history (react u k0 i0 e0 w) k) = length (history w k).
Proof.
  unfold react.
  destruct (chat_history w !! k0) as [messages|] eqn:Hk0; [|done].
  destruct (_ && _); [|done].
  destruct (messages !! Z.to_nat i0); [|done].
  destruct (toggle _ _ _); [done|]. unfold history. simpl.
  destruct (decide (k = k0)) as [->|Hk].
  - rewrite lookup_insert_eq, Hk0. simpl. by rewrite length_insert.
  - by rewrite lookup_insert_ne.
Qed.

(** An event changes the length of a history by nothing or by one. *)
Lemma step_length (w : world) (i : ctx * event) (k : hkey) :
  length (history (step w i) k) = length (history w k)
  ∨ length (history (step w i) k) = S (length (history w k)).
Proof.
  destruct i as [c ev].
  destruct ev;
    try (left; unfold history; by rewrite step_history_frame).
  - destruct (step_message c data w) as [Heq|(k0 & m & _ & Heq)];
      unfold history in *; rewrite Heq; [by left|].
    destruct (decide (k = k0)) as [->|Hk].
    + rewrite lookup_insert_eq. simpl. rewrite length_app. simpl. right. lia.
    + rewrite lookup_insert_ne by done. by left.
  - left. rewrite step_react. destruct (reaction_request c data) as [[[[u k0] i0] e0]|]; [|done].
    apply react_length.
Qed.

(** A message that is there stays at its index; an event can only change
    its reactions, as [touch] says. *)
Lemma step_lookup_Some (w : world) (i : ctx * event) (k : hkey) (n : nat) (m : message) :
  history w k !! n = Some m →
  history (step w i) k !! n = Some (touch i k n m).
Proof.
  intros Hm. destruct i as [c ev]. unfold touch. simpl.
  destruct ev;
    try (unfold history in *; by rewrite step_history_frame).
  - destruct (step_message c data w) as [Heq|(k0 & m0 & _ & Heq)];
      unfold history in *; rewrite Heq; [done|].
    destruct (decide (k = k0)) as [->|Hk].
    + rewrite lookup_insert_eq. simpl. by rewrite lookup_app_l_Some with (x := m).
    + by rewrite lookup_insert_ne.
  - rewrite step_react. destruct (reaction_request c data) as [[[[u k0] i0] e0]|]; [|done].
    by apply react_lookup_Some.
Qed.

(** A message that appears was appended: it sits at the old length and
    has no reactions yet. *)
Lemma step_lookup_new (w : world) (i : ctx * event) (k : hkey) (n : nat) (m : message) :
  history w k !! n = None →
  history (step w i) k !! n = Some m →
  n = length (history w k) ∧ m_reactions m = ∅.
Proof.
  intros Hnone Hm. destruct i as [c ev].
  assert (length (history w k) ≤ n)%nat as Hge by by apply lookup_ge_None.
  pose proof (lookup_lt_Some _ _ _ Hm) as Hlt.
  destruct ev;
    try (unfold history in *; rewrite step_history_frame in Hm by done; congruence).
  - destruct (step_message c data w) as [Heq|(k0 & m0 & Hm0 & Heq)];
      unfold history in *; rewrite Heq in *; [congruence|].
    destruct (decide (k = k0)) as [->|Hk].
    + rewrite lookup_insert_eq in *. simpl in *.
      rewrite length_app in Hlt. simpl in Hlt.
      assert (n = length (default [] (chat_history w !! k0))) as -> by lia.
      split; [done|]. rewrite lookup_app_r, Nat.sub_diag in Hm by done.
      simpl in Hm. by simplify_eq.
    + rewrite lookup_insert_ne in * by done. congruence.
  - rewrite step_react in *. destruct (reaction_request c data) as [[[[u k0] i0] e0]|];
      [|congruence].
    rewrite react_length in Hlt. lia.
Qed.

Lemma content_touch (i : ctx * event) (k : hkey) (n : nat) (m : message) :
  content (touch i k n m) = content m.
Proof.
  unfold touch. destruct (i.2); try done.
  destruct (reaction_request _ _) as [[[[u k0] i0] e0]|]; [|done].
  case_decide; [|done]. by destruct (toggle _ _ _).
Qed.

(** ** Reactions are never present and empty *)

Lemma touch_no_empty (i : ctx * event) (k : hkey) (n : nat) (m : message) (e : hkey) :
  m_reactions m !! e ≠ Some [] →
  m_reactions (touch i k n m) !! e ≠ Some [].
Proof.
  intros Hm. unfold touch. destruct (i.2); try done.
  destruct (reaction_request _ _) as [[[[u k0] i0] e0]|]; [|done].
  case_decide; [|done].
  destruct (toggle_spec u e0 (m_reactions m)) as (r & -> & Hother & Hne & _).
  simpl. destruct (decide (e = e0)) as [->|He]; [done|].
  by rewrite Hother.
Qed.

Lemma step_no_empty (w : world) (i : ctx * event) :
  no_empty_reactions w → no_empty_reactions (step w i).
Proof.
  intros Hinv k n m' e Hm'. destruct (history w k !! n) as [m|] eqn:Hold.
  - rewrite (step_lookup_Some w i k n m Hold) in Hm'. simplify_eq.
    apply touch_no_empty. by eapply Hinv.
  - destruct (step_lookup_new w i k n m' Hold Hm') as [_ ->].
    by rewrite lookup_empty.
Qed.

(** C2. Every handler preserves the invariant that no emoji of any message
    is recorded with an empty list of names; the toggle that takes the last
    name off an emoji deletes the emoji in the same step. *)
Theorem reactions_never_empty (w : world) (i : ctx * event) :
  no_empty_reactions w →
  no_empty_reactions (step w i)
  ∧ ∀ u e r, r !! e = Some [u] → toggle u e r = inr (delete e r).
Proof.
  intros Hinv. split; [by apply step_no_empty|].
  intros u e r Hr. unfold toggle. rewrite decide_False by congruence.
  rewrite Hr. rewrite bool_decide_eq_true_2 by (by apply list_elem_of_singleton).
  simpl. by rewrite bool_decide_eq_true_2.
Qed.

(** ** Indices of a history *)

Lemma run_cons (w : world) (i : ctx * event) (evs : list (ctx * event)) :
  run w (i :: evs) = run (step w i) evs.
Proof. done. Qed.

Lemma run_snoc (w : world) (evs : list (ctx * event)) (i : ctx * event) :
  run w (evs ++ [i]) = step (run w evs) i.
Proof. unfold run. by rewrite foldl_app. Qed.

Lemma run_lookup_Some (evs : list (ctx * event)) (w : world) (k : hkey) (n : nat)
    (m : message) :
  history w k !! n = Some m →
  ∃ m', history (run w evs) k !! n = Some m' ∧ content m' = content m.
Proof.
  revert w m. induction evs as [|i evs IH]; intros w m Hm; [by exists m|].
  rewrite run_cons.
  destruct (IH _ _ (step_lookup_Some w i k n m Hm)) as (m' & Hm' & Hc).
  exists m'. split; [done|]. by rewrite Hc, content_touch.
Qed.

(** C6. A message that an event appends to a room takes the position that
    was the length of the room's history; whatever events follow, that
    position keeps holding a message of the same content, and a message
    appended later to the same room takes a strictly larger position. *)
Theorem history_indices_increasing_and_stable
    (w : world) (i1 i2 : ctx * event) (evs : list (ctx * event))
    (k : hkey) (n1 n2 : nat) (m1 : message) :
  history w k !! n1 = None →
  history (step w i1) k !! n1 = Some m1 →
  let w' := run (step w i1) evs in
  n1 = length (history w k)
  ∧ (∃ m', history w' k !! n1 = Some m' ∧ content m' = content m1)
  ∧ (history w' k !! n2 = None →
     is_Some (history (step w' i2) k !! n2) →
     (n1 < n2)%nat ∧ n2 = length (history w' k)).
Proof.
  intros Hnone Hm1 w'.
  destruct (step_lookup_new w i1 k n1 m1 Hnone Hm1) as [Hn1 _].
  destruct (run_lookup_Some evs _ k n1 m1 Hm1) as (m' & Hm' & Hc).
  split_and!; [done|by exists m'|].
  intros Hnone2 [m2 Hm2]. fold w' in Hm'.
  destruct (step_lookup_new w' i2 k n2 m2 Hnone2 Hm2) as [Hn2 _].
  split; [|done]. apply lookup_lt_Some in Hm'. apply lookup_ge_None in Hnone2. lia.
Qed.

(** ** Toggling a reaction an even number of times *)

(** One event flips, in the names recorded for an emoji of an existing
    message, the name of the one who toggles it and no other. *)
Lemma step_reactors (w : world) (i : ctx * event) (k : hkey) (n : nat) (e : hkey) :
  NoDup (reactors w k n e) →
  (n < length (history w k))%nat →
  NoDup (reactors (step w i) k n e)
  ∧ ∀ y, y ∈ reactors (step w i) k n e ↔
         if decide (toggler i k n e = Some y) then y ∉ reactors w k n e
         else y ∈ reactors w k n e.
Proof.
  intros Hnd Hlt. apply lookup_lt_is_Some in Hlt as [m Hm].
  unfold reactors in *. rewrite (step_lookup_Some w i k n m Hm). rewrite Hm in *.
  unfold touch, toggler. destruct (i.2);
    try (split; [done|]; intros y; by rewrite decide_False).
  destruct (reaction_request _ _) as [[[[u k0] i0] e0]|];
    [|split; [done|]; intros y; by rewrite decide_False].
  destruct (decide (k = k0 ∧ Z.of_nat n = i0)) as [[-> <-]|Hother].
  - destruct (toggle_spec u e0 (m_reactions m)) as (r & -> & Hne & _ & Hmem).
    simpl. destruct (decide (e = e0)) as [->|He].
    + destruct (Hmem Hnd) as [Hnd' Hmem']. split; [done|]. intros y.
      rewrite Hmem'. rewrite bool_decide_eq_true_2 by done.
      destruct (decide (y = u)) as [->|Hy].
      * by rewrite decide_True.
      * rewrite decide_False; [done|]. congruence.
    + rewrite Hne by done. split; [done|]. intros y.
      rewrite bool_decide_eq_false_2 by naive_solver. by rewrite decide_False.
  - split; [done|]. intros y.
    rewrite bool_decide_eq_false_2 by naive_solver. by rewrite decide_False.
Qed.

Lemma toggles_by_cons (u : string) (k : hkey) (n : nat) (e : hkey)
    (i : ctx * event) (evs : list (ctx * event)) :
  toggles_by u k n e (i :: evs)
  = if decide (toggler i k n e = Some u) then S (toggles_by u k n e evs)
    else toggles_by u k n e evs.
Proof. unfold toggles_by. rewrite filter_cons. by case_decide. Qed.

(** After a sequence of events a name is among those recorded for an
    emoji of an existing message exactly when it was and toggled an even
    number of times, or was not and toggled an odd number of times. *)
Lemma run_reactors (evs : list (ctx * event)) (w : world) (k : hkey) (n : nat) (e : hkey) :
  NoDup (reactors w k n e) →
  (n < length (history w k))%nat →
  NoDup (reactors (run w evs) k n e)
  ∧ ∀ y, y ∈ reactors (run w evs) k n e ↔
         if Nat.even (toggles_by y k n e evs) then y ∈ reactors w k n e
         else y ∉ reactors w k n e.
Proof.
  revert w. induction evs as [|i evs IH]; intros w Hnd Hlt; [done|].
  rewrite run_cons. destruct (step_reactors w i k n e Hnd Hlt) as [Hnd1 Hmem1].
  assert (n < length (history (step w i) k))%nat as Hlt1.
  { destruct (step_length w i k) as [->| ->]; lia. }
  destruct (IH _ Hnd1 Hlt1) as [Hnd2 Hmem2]. split; [done|]. intros y.
  rewrite Hmem2, toggles_by_cons. specialize (Hmem1 y).
  destruct (decide (toggler i k n e = Some y)).
  - rewrite Nat.even_succ, <- Nat.negb_even.
    destruct (Nat.even (toggles_by y k n e evs)); simpl; [done|].
    rewrite Hmem1. split; [|naive_solver].
    intros Hnn. by destruct (decide (y ∈ reactors w k n e)).
  - destruct (Nat.even (toggles_by y k n e evs)); by rewrite Hmem1.
Qed.

(** In every state the engine can be in the names recorded for an emoji of
    a message are pairwise distinct. *)
Lemma reachable_reactors_NoDup (w : world) (k : hkey) (n : nat) (e : hkey) :
  reachable w → NoDup (reactors w k n e).
Proof.
  intros [evs ->]. induction evs as [|i evs IH] using rev_ind.
  - unfold reactors, history. simpl. rewrite lookup_empty. simpl. apply NoDup_nil_2.
  - rewrite run_snoc. set (w := run initial evs) in *.
    destruct (history w k !! n) as [m|] eqn:Hm.
    + apply step_reactors; [done|]. by eapply lookup_lt_Some.
    + unfold reactors. destruct (history (step w i) k !! n) as [m'|] eqn:Hm';
        [|apply NoDup_nil_2].
      destruct (step_lookup_new w i k n m' Hm Hm') as [_ ->].
      rewrite lookup_empty. apply NoDup_nil_2.
Qed.

(** C1. Take a message that exists and an emoji.  Over any sequence of
    events in which one identity toggles that emoji on that message an even
    number of times and nobody else toggles it, the set of names recorded
    for the emoji ends as it began. *)
Theorem toggle_even_restores_reactors
    (w : world) (evs : list (ctx * event)) (u : string) (k : hkey) (n : nat) (e : hkey) :
  reachable w →
  (n < length (history w k))%nat →
  Forall (λ i, toggler i k n e = None ∨ toggler i k n e = Some u) evs →
  Nat.even (toggles_by u k n e evs) = true →
  list_to_set (reactors (run w evs) k n e) =@{gset string}
  list_to_set (reactors w k n e).
Proof.
  intros Hw Hlt Honly Heven.
  destruct (run_reactors evs w k n e (reachable_reactors_NoDup w k n e Hw) Hlt)
    as [_ Hmem].
  apply set_eq. intros y. rewrite !elem_of_list_to_set, Hmem.
  destruct (decide (y = u)) as [->|Hy]; [by rewrite Heven|].
  assert (toggles_by y k n e evs = 0%nat) as ->; [|done].
  unfold toggles_by. apply length_zero_iff_nil. clear Hmem Heven.
  induction Honly as [|i evs' Hi _ IH]; [done|].
  rewrite filter_cons. rewrite decide_False; [done|].
  destruct Hi as [-> | ->]; congruence.
Qed.

(** ** The typing status *)

Lemma set_list_elem_of (X : gset string) (y : string) : y ∈ set_list X ↔ y ∈ X.
Proof using set_list_perm. by rewrite set_list_perm, elem_of_elements. Qed.

Lemma set_list_length (X : gset string) : length (set_list X) = size X.
Proof using set_list_perm. by rewrite set_list_perm. Qed.

Lemma set_list_NoDup (X : gset string) : NoDup (set_list X).
Proof using set_list_perm. rewrite set_list_perm. apply NoDup_elements. Qed.

Lemma typing_status_spec (X : gset string) :
  ∃ msg, typing_status X = inr msg ∧ status_policy X msg.
Proof using set_list_perm.
  clear strip.
  unfold typing_status, status_policy.
  pose proof (set_list_length X) as Hlen.
  pose proof (set_list_NoDup X) as Hnd.
  pose proof (set_list_elem_of X) as Hmem.
  destruct (size X) as [|[|[|s]]] eqn:Hsize; simpl.
  - eexists. split; [done|]. split_and!; [done|intros; lia..].
  - destruct (set_list X) as [|u [|??]]; simplify_eq/=.
    eexists. split; [done|]. split_and!; [done| |intros; lia..].
    intros _. exists u. split; [|done]. apply set_eq. intros y.
    rewrite <- Hmem. set_solver.
  - destruct (set_list X) as [|u1 [|u2 [|??]]]; simplify_eq/=.
    eexists. split; [done|]. split_and!; [done|done| |intros; lia].
    intros _. exists u1, u2. split_and!; [|apply set_eq; intros y|done].
    + apply NoDup_cons in Hnd as [Hnd _]. set_solver.
    + rewrite <- Hmem. set_solver.
  - eexists. split; [done|]. split_and!; [done..|]. done.
Qed.

(** C3. A typing event of a participant in a room, with both fields in its
    payload, records the participant's flag and sends to the room one
    status whose text follows the policy for the people typing in the room
    other than the participant. *)
Theorem typing_status_follows_policy
    (c : ctx) (data room typing : value) (k : hkey) (username : string) (w : world) :
  current_user c = Some username →
  subscript data "room" = inr room →
  subscript data "typing" = inr typing →
  py_hash room = inr k →
  let before := default ∅ (typing_users w !! k) in
  let after := default ∅ (typing_users (step w (c, Typing data)) !! k) in
  ∃ msg,
    effects w (c, Typing data)
    = [Emit (Ev_status msg "typing" (Some room) None) (Room room)]
    ∧ outcome w (c, Typing data) = inr VNone
    ∧ after = (if truthy typing then before ∪ {[username]}
               else before ∖ {[username]})
    ∧ after ∖ {[username]} = before ∖ {[username]}
    ∧ status_policy (before ∖ {[username]}) msg.
Proof using set_list_perm.
  intros Hu Hroom Hty Hk before after.
  destruct (typing_status_spec (before ∖ {[username]})) as (msg & Hmsg & Hpol).
  exists msg. subst before after. unfold_m. rewrite Hu, Hroom, Hty, Hk. simpl.
  set (upd := λ s : gset string,
         if truthy typing then s ∪ {[username]} else s ∖ {[username]}).
  assert (∀ s, upd s ∖ {[username]} = s ∖ {[username]}) as Hupd.
  { intros s. unfold upd. destruct (truthy typing); set_solver. }
  case_decide as Hnone; simpl.
  - rewrite lookup_insert_eq. simpl. rewrite lookup_insert_eq. simpl.
    rewrite Hnone in *. simpl in *. fold (upd ∅). rewrite Hupd, Hmsg. simpl.
    rewrite lookup_insert_eq. simpl. by rewrite Hupd.
  - destruct (typing_users w !! k) as [s|] eqn:Hs; [|done]. simpl in *.
    rewrite lookup_insert_eq. simpl. fold (upd s). rewrite Hupd, Hmsg. simpl.
    rewrite lookup_insert_eq. simpl. by rewrite Hupd.
Qed.

(** ** The history replayed on a join *)

Lemma py_in_elem_of (r : string) (l : list string) :
  r ∈ l → py_in (VStr r) l = true.
Proof.
  intros Hin. unfold py_in. apply existsb_exists. exists r.
  split; [by apply list_elem_of_In|]. simpl. by apply bool_decide_eq_true.
Qed.

(** C9, as the code has it. A join to a room of the catalog by a
    registered connection returns normally; it sends the room's history to
    the joining connection, and to it only, when the room has an entry in
    [chat_history], and sends no history event when the room has none. *)
Theorem join_replays_recorded_history
    (c : ctx) (data : value) (r username : string) (ud : user_data) (w : world) :
  current_user c = Some username →
  subscript data "room" = inr (VStr r) →
  r ∈ CHAT_ROOMS →
  assoc (sid c) (active_users w) = Some ud →
  outcome w (c, Join data) = inr VNone
  ∧ effects w (c, Join data)
    = [ Join_room (sid c) (VStr r);
        Emit (Ev_status (username +:+ " has joined the room.") "join"
                None (Some (now c))) (Room (VStr r)) ]
      ++ match chat_history w !! HStr r with
         | Some messages =>
             [Emit (Ev_chat_history (VStr r) messages) (Room (VStr (sid c)))]
         | None => []
         end
      ++ [Log INFO "User joined room: " [A_str username; A_val (VStr r)]].
Proof.
  intros Hu Hroom Hr Hud. unfold_m. rewrite Hu, Hroom. simpl.
  rewrite (py_in_elem_of r CHAT_ROOMS Hr). simpl. rewrite Hud. simpl.
  by destruct (chat_history w !! HStr r).
Qed.

(** ** Faults *)

Lemma try_except_returns {A : Type} (body : M A) (handler : exn → M A) (w : world) :
  (∀ e w1, ∃ a, (handler e w1).1.1 = inr a) →
  ∃ a, (try_except body handler w).1.1 = inr a.
Proof.
  intros Hh. unfold try_except. destruct (body w) as [[[e|a] w1] o1]; [|by exists a].
  destruct (Hh e w1) as [a Ha]. exists a.
  by destruct (handler e w1) as [[? ?] ?].
Qed.

(** C4. A typing event whose payload lacks the room leaves [handle_typing]
    with an exception, which nothing catches; every other handler returns
    whatever it is given. *)
Theorem typing_fault_propagates (c : ctx) (w : world) :
  outcome w (c, Typing (VDict []))
  = inl (match current_user c with Some _ => KeyError | None => AttributeError end)
  ∧ ∀ ev, match ev with
          | Typing _ => True
          | _ => ∃ v, outcome w (c, ev) = inr v
          end.
Proof.
  split.
  - unfold_m. by destruct (current_user c).
  - intros ev. destruct ev; try done; unfold outcome, handle; simpl.
    + unfold_m. destruct (current_user c); by eexists.
    + unfold_m. destruct (assoc (sid c) (active_users w)); by eexists.
    + apply try_except_returns. intros e w1. by eexists.
    + apply try_except_returns. intros e w1. by eexists.
    + apply try_except_returns. intros e w1. by eexists.
    + apply try_except_returns. intros e w1. by eexists.
Qed.

(** ** What every reachable state satisfies *)

Lemma reachable_ind (P : world → Prop) :
  P initial →
  (∀ w i, reachable w → P w → P (step w i)) →
  ∀ w, reachable w → P w.
Proof.
  intros Hinit Hstep w [evs ->]. induction evs as [|i evs IH] using rev_ind; [done|].
  rewrite run_snoc. apply Hstep; [by exists evs|done].
Qed.

Lemma reachable_no_empty (w : world) : reachable w → no_empty_reactions w.
Proof.
  revert w. apply reachable_ind.
  - intros k n m e. unfold history. simpl. by rewrite lookup_empty.
  - intros w i _. apply step_no_empty.
Qed.

Lemma od_set_keys_elem {A : Type} (k : string) (a : A) (d : list (string * A))
    (k' : string) :
  k' ∈ (od_set k a d).*1 → k' = k ∨ k' ∈ d.*1.
Proof.
  clear strip.
  induction d as [|[k0 a0] d IH]; simpl.
  - rewrite list_elem_of_singleton. by left.
  - case_bool_decide; simpl; rewrite !elem_of_cons; naive_solver.
Qed.

Lemma od_set_keys_NoDup {A : Type} (k : string) (a : A) (d : list (string * A)) :
  NoDup d.*1 → NoDup (od_set k a d).*1.
Proof.
  induction d as [|[k0 a0] d IH]; simpl; intros Hnd.
  - apply NoDup_singleton.
  - apply NoDup_cons in Hnd as [Hk0 Hnd]. case_bool_decide; simpl.
    + subst. by apply NoDup_cons.
    + apply NoDup_cons. split; [|by apply IH].
      intros [->|Hin]%od_set_keys_elem; done.
Qed.

Lemma od_del_keys_elem {A : Type} (k : string) (d : list (string * A)) (k' : string) :
  k' ∈ (od_del k d).*1 → k' ∈ d.*1.
Proof.
  clear strip.
  induction d as [|[k0 a0] d IH]; simpl; [done|].
  case_bool_decide; simpl; rewrite !elem_of_cons; naive_solver.
Qed.

Lemma od_del_keys_NoDup {A : Type} (k : string) (d : list (string * A)) :
  NoDup d.*1 → NoDup (od_del k d).*1.
Proof.
  induction d as [|[k0 a0] d IH]; simpl; intros Hnd; [done|].
  apply NoDup_cons in Hnd as [Hk0 Hnd]. case_bool_decide; simpl; [done|].
  apply NoDup_cons. split; [|by apply IH].
  by intros Hin%od_del_keys_elem.
Qed.

(** An event leaves [active_users] alone, sets the entry of its connection
    or deletes it. *)
Lemma step_active_users (w : world) (i : ctx * event) :
  active_users (step w i) = active_users w
  ∨ (∃ ud, active_users (step w i) = od_set (sid i.1) ud (active_users w))
  ∨ active_users (step w i) = od_del (sid i.1) (active_users w).
Proof.
  destruct i as [c ev]. destruct ev.
  - unfold_m. destruct (current_user c); simpl; [right; left; by eexists|by left].
  - unfold_m. destruct (assoc (sid c) (active_users w)); simpl; [by right; right|by left].
  - unfold_m. destruct (current_user c); simpl; [|by left].
    destruct (subscript data "room") as [|room]; simpl; [by left|].
    destruct (py_in room CHAT_ROOMS); simpl; [|by left].
    destruct (assoc (sid c) (active_users w)); simpl; [|by left].
    destruct (py_hash room) as [|k]; simpl; [right; left; by eexists|].
    destruct (chat_history w !! k); simpl; right; left; by eexists.
  - unfold_m. destruct (current_user c); simpl; [|by left].
    destruct (subscript data "room") as [|room]; simpl; [by left|].
    destruct (assoc (sid c) (active_users w)); simpl; [right; left; by eexists|by left].
  - left. unfold_m.
    destruct (current_user c); simpl; [|done].
    destruct (dict_get data "room" _) as [|room]; simpl; [done|].
    destruct (dict_get data "type" _) as [|msg_type]; simpl; [done|].
    destruct (dict_get data "msg" _) as [|raw]; simpl; [done|].
    destruct (py_strip raw) as [|message]; simpl; [done|].
    case_bool_decide; simpl; [done|].
    destruct (eq_str msg_type "private"); simpl.
    + destruct (dict_get data "target" _) as [|target_user]; simpl; [done|].
      destruct (truthy target_user); simpl; [|done].
      by destruct (find _ _) as [[? ?]|].
    + destruct (py_in room CHAT_ROOMS); simpl; [|done].
      destruct (py_hash room) as [|k]; simpl; [done|].
      case_decide; simpl.
      * by rewrite lookup_insert_eq.
      * by destruct (chat_history w !! k).
  - left. rewrite step_react.
    destruct (reaction_request c data) as [[[[u k] n] e]|]; [|done].
    unfold react. by repeat case_match.
  - left. unfold_m.
    destruct (current_user c); simpl; [|done].
    destruct (subscript data "room") as [|room]; simpl; [done|].
    destruct (subscript data "typing") as [|typing]; simpl; [done|].
    destruct (py_hash room) as [|k]; simpl; [done|].
    case_decide; simpl.
    + rewrite lookup_insert_eq. simpl. rewrite lookup_insert_eq. simpl.
      by destruct (typing_status _).
    + destruct (typing_users w !! k); simpl; [|done].
      rewrite lookup_insert_eq. simpl. by destruct (typing_status _).
Qed.

(** The connection ids of [active_users] are pairwise distinct, as the
    keys of a dict are. *)
Lemma reachable_sids_NoDup (w : world) : reachable w → NoDup (active_users w).*1.
Proof.
  revert w. apply reachable_ind; [apply NoDup_nil_2|].
  intros w i _ Hnd.
  destruct (step_active_users w i) as [-> | [[ud ->] | ->]];
    [done|by apply od_set_keys_NoDup|by apply od_del_keys_NoDup].
Qed.

(** ** The registry of connections *)

Lemma assoc_od_set_eq {A : Type} (k : string) (a : A) (d : list (string * A)) :
  assoc k (od_set k a d) = Some a.
Proof.
  induction d as [|[k' a'] d IH]; simpl.
  - by rewrite bool_decide_eq_true_2.
  - case_bool_decide as Hk; simpl.
    + by rewrite bool_decide_eq_true_2.
    + by rewrite bool_decide_eq_false_2.
Qed.

Lemma assoc_od_set_ne {A : Type} (k s : string) (a : A) (d : list (string * A)) :
  s ≠ k → assoc s (od_set k a d) = assoc s d.
Proof.
  intros Hne. induction d as [|[k' a'] d IH]; simpl.
  - by rewrite bool_decide_eq_false_2.
  - case_bool_decide as Hk; simpl.
    + subst. by rewrite !bool_decide_eq_false_2.
    + by rewrite IH.
Qed.

Lemma assoc_od_del_ne {A : Type} (k s : string) (d : list (string * A)) :
  s ≠ k → assoc s (od_del k d) = assoc s d.
Proof.
  intros Hne. induction d as [|[k' a'] d IH]; simpl; [done|].
  case_bool_decide as Hk; simpl.
  - subst. by rewrite bool_decide_eq_false_2.
  - by rewrite IH.
Qed.

Lemma od_set_fresh {A : Type} (k : string) (a : A) (d : list (string * A)) :
  assoc k d = None → od_set k a d = d ++ [(k, a)].
Proof.
  induction d as [|[k' a'] d IH]; simpl; [done|].
  case_bool_decide; [done|]. intros Hd. by rewrite IH.
Qed.

Lemma od_del_snoc {A : Type} (k : string) (a : A) (d : list (string * A)) :
  assoc k d = None → od_del k (d ++ [(k, a)]) = d.
Proof.
  induction d as [|[k' a'] d IH]; simpl.
  - by rewrite bool_decide_eq_true_2.
  - case_bool_decide; [done|]. intros Hd. by rewrite IH.
Qed.

Lemma od_set_same {A : Type} (k : string) (a : A) (d : list (string * A)) :
  assoc k d = Some a → od_set k a d = d.
Proof.
  induction d as [|[k' a'] d IH]; simpl; [done|].
  case_bool_decide as Hk; [by intros [= ->]; subst|].
  intros Hd. by rewrite IH.
Qed.

Lemma od_set_twice {A : Type} (k : string) (a b : A) (d : list (string * A)) :
  od_set k b (od_set k a d) = od_set k b d.
Proof.
  induction d as [|[k' a'] d IH]; simpl.
  - by rewrite bool_decide_eq_true_2.
  - case_bool_decide as Hk; simpl.
    + by rewrite bool_decide_eq_true_2.
    + by rewrite bool_decide_eq_false_2, IH.
Qed.

Lemma od_set_length {A : Type} (k : string) (a : A) (d : list (string * A)) :
  (length d ≤ length (od_set k a d))%nat.
Proof.
  induction d as [|[k' a'] d IH]; simpl; [lia|].
  case_bool_decide; simpl; lia.
Qed.

Lemma od_set_names (k : string) (a ud : user_data) (d : list (string * user_data)) :
  assoc k d = Some ud →
  u_username a = u_username ud →
  map (λ e, u_username e.2) (od_set k a d) = map (λ e, u_username e.2) d.
Proof.
  intros Hk Hname. induction d as [|[k' a'] d IH]; simpl in *; [done|].
  case_bool_decide; simpl.
  - simplify_eq. by rewrite Hname.
  - by rewrite IH.
Qed.

(** X1. A connect by a logged-in user files the connection under its id
    with the user's name, the time and no room, whatever was filed there
    before; the other connections keep their entries.  A new id goes to
    the end of the roster.  The new roster is broadcast, and neither the
    typing sets nor the histories change. *)
Theorem connect_registers (c : ctx) (u : string) (w : world) :
  current_user c = Some u →
  let w' := step w (c, Connect) in
  assoc (sid c) (active_users w')
  = Some {| u_username := u; u_connected_at := now c; u_room := None |}
  ∧ (∀ s, s ≠ sid c → assoc s (active_users w') = assoc s (active_users w))
  ∧ (assoc (sid c) (active_users w) = None → roster w' = roster w ++ [u])
  ∧ (length (roster w) ≤ length (roster w'))%nat
  ∧ effects w (c, Connect)
    = [ Emit (Ev_active_users (roster w')) Broadcast;
        Log INFO "User connected: " [A_str u] ]
  ∧ outcome w (c, Connect) = inr VNone
  ∧ typing_users w' = typing_users w
  ∧ chat_history w' = chat_history w.
Proof.
  intros Hu w'. subst w'. unfold roster. unfold_m. rewrite Hu. simpl.
  split_and!; try done.
  - apply assoc_od_set_eq.
  - intros s Hs. by apply assoc_od_set_ne.
  - intros Hnew. rewrite od_set_fresh by done. by rewrite map_app.
  - rewrite !length_map. apply od_set_length.
Qed.

(** X2. Connecting under a new id and then disconnecting that id gives
    back the state there was. *)
Theorem connect_disconnect_round_trip (c c' : ctx) (u : string) (w : world) :
  current_user c = Some u →
  assoc (sid c) (active_users w) = None →
  sid c' = sid c →
  step (step w (c, Connect)) (c', Disconnect) = w.
Proof.
  intros Hu Hnew Hsid. unfold_m. rewrite Hu, Hsid. simpl.
  rewrite assoc_od_set_eq. simpl. unfold set_active_users. simpl.
  rewrite od_set_fresh by done. rewrite od_del_snoc by done. by destruct w.
Qed.

(** X3. The disconnect of a registered connection sends the new roster to
    everyone and nothing else: no status tells a room that somebody left.
    The other connections keep their entries, and the typing sets and the
    histories stay as they were. *)
Theorem disconnect_sends_roster_only (c : ctx) (ud : user_data) (w : world) :
  assoc (sid c) (active_users w) = Some ud →
  let w' := step w (c, Disconnect) in
  effects w (c, Disconnect)
  = [ Emit (Ev_active_users (roster w')) Broadcast;
      Log INFO "User disconnected: " [A_str (u_username ud)] ]
  ∧ (∀ s, s ≠ sid c → assoc s (active_users w') = assoc s (active_users w))
  ∧ typing_users w' = typing_users w
  ∧ chat_history w' = chat_history w.
Proof.
  intros Hud w'. subst w'. unfold_m. rewrite Hud. simpl.
  split_and!; try done. intros s Hs. by apply assoc_od_del_ne.
Qed.

(** X4. A join of a catalog room by a registered connection records the
    room in the entry of that connection and changes nothing else: the
    other entries, the roster, the typing sets and the histories stay. *)
Theorem join_records_room
    (c : ctx) (data : value) (r username : string) (ud : user_data) (w : world) :
  current_user c = Some username →
  subscript data "room" = inr (VStr r) →
  r ∈ CHAT_ROOMS →
  assoc (sid c) (active_users w) = Some ud →
  let w' := step w (c, Join data) in
  assoc (sid c) (active_users w') = Some (set_room (Some (VStr r)) ud)
  ∧ (∀ s, s ≠ sid c → assoc s (active_users w') = assoc s (active_users w))
  ∧ roster w' = roster w
  ∧ typing_users w' = typing_users w
  ∧ chat_history w' = chat_history w.
Proof.
  intros Hu Hroom Hr Hud w'. subst w'. unfold roster. unfold_m.
  rewrite Hu, Hroom. simpl.
  rewrite (py_in_elem_of r CHAT_ROOMS Hr). simpl. rewrite Hud. simpl.
  destruct (chat_history w !! HStr r); simpl.
  - split_and!; try done.
    + apply assoc_od_set_eq.
    + intros s Hs. by apply assoc_od_set_ne.
    + by apply od_set_names with (ud := ud).
  - split_and!; try done.
    + apply assoc_od_set_eq.
    + intros s Hs. by apply assoc_od_set_ne.
    + by apply od_set_names with (ud := ud).
Qed.

(** X5. A join of a catalog room from a connection that has no entry in
    [active_users] asks the transport to put the connection in the room
    and then fails on the missing entry: the fault is logged, no status and
    no history is sent, and the dictionaries stay as they were. *)
Theorem join_without_entry_joins_transport_room_only
    (c : ctx) (data : value) (r username : string) (w : world) :
  current_user c = Some username →
  subscript data "room" = inr (VStr r) →
  r ∈ CHAT_ROOMS →
  assoc (sid c) (active_users w) = None →
  step w (c, Join data) = w
  ∧ outcome w (c, Join data) = inr VNone
  ∧ effects w (c, Join data)
    = [ Join_room (sid c) (VStr r); Log ERROR "Join room error: " [A_exn KeyError] ].
Proof.
  intros Hu Hroom Hr Hud. unfold_m. rewrite Hu, Hroom. simpl.
  rewrite (py_in_elem_of r CHAT_ROOMS Hr). simpl. by rewrite Hud.
Qed.

(** X6. A leave is not checked against the catalog: for any room name it
    asks the transport to take the connection out of that room, clears the
    room of the connection's entry if there is one, and sends the status to
    that room.  The roster, the typing sets and the histories stay. *)
Theorem leave_any_room
    (c : ctx) (data : value) (r username : string) (w : world) :
  current_user c = Some username →
  subscript data "room" = inr (VStr r) →
  let w' := step w (c, Leave data) in
  effects w (c, Leave data)
  = [ Leave_room (sid c) (VStr r);
      Emit (Ev_status (username +:+ " has left the room.") "leave"
              None (Some (now c))) (Room (VStr r));
      Log INFO "User left room: " [A_str username; A_val (VStr r)] ]
  ∧ outcome w (c, Leave data) = inr VNone
  ∧ assoc (sid c) (active_users w') = set_room None <$> assoc (sid c) (active_users w)
  ∧ (∀ s, s ≠ sid c → assoc s (active_users w') = assoc s (active_users w))
  ∧ roster w' = roster w
  ∧ typing_users w' = typing_users w
  ∧ chat_history w' = chat_history w.
Proof.
  intros Hu Hroom w'. subst w'. unfold roster. unfold_m. rewrite Hu, Hroom. simpl.
  destruct (assoc (sid c) (active_users w)) as [ud|] eqn:Hud; simpl.
  - split_and!; try done.
    + apply assoc_od_set_eq.
    + intros s Hs. by apply assoc_od_set_ne.
    + by apply od_set_names with (ud := ud).
  - by rewrite Hud.
Qed.

(** X7. For a registered connection that is in no room, joining a catalog
    room and then leaving it gives back the state there was. *)
Theorem join_leave_round_trip
    (c : ctx) (data : value) (r username : string) (ud : user_data) (w : world) :
  current_user c = Some username →
  subscript data "room" = inr (VStr r) →
  r ∈ CHAT_ROOMS →
  assoc (sid c) (active_users w) = Some ud →
  u_room ud = None →
  step (step w (c, Join data)) (c, Leave data) = w.
Proof.
  intros Hu Hroom Hr Hud Hnone. unfold_m. rewrite Hu, Hroom. simpl.
  rewrite (py_in_elem_of r CHAT_ROOMS Hr). simpl. rewrite Hud. simpl.
  assert (set_room None (set_room (Some (VStr r)) ud) = ud) as Hback.
  { destruct ud. simpl in *. by subst. }
  destruct (chat_history w !! HStr r); simpl;
    rewrite assoc_od_set_eq; simpl; unfold set_active_users; simpl;
    rewrite od_set_twice, Hback, od_set_same by done; by destruct w.
Qed.

(** ** Messages *)

(** X8. A message of a logged-in user to a catalog room, not private and
    with a text that is not blank once stripped, is appended to the history
    of that room with the stripped text, the user's name, the time and no
    reactions, and is sent with the same fields to that room.  The other
    histories, the registry and the typing sets stay as they were. *)
Theorem room_message_appended_and_sent
    (c : ctx) (d : list (string * value)) (r raw username : string) (w : world) :
  current_user c = Some username →
  assoc "room" d = Some (VStr r) →
  r ∈ CHAT_ROOMS →
  dict_get (VDict d) "type" (VStr "message") ≠ inr (VStr "private") →
  assoc "msg" d = Some (VStr raw) →
  strip raw ≠ "" →
  let w' := step w (c, Message (VDict d)) in
  let m := {| m_msg := strip raw; m_username := username;
              m_timestamp := now c; m_reactions := ∅ |} in
  history w' (HStr r) = history w (HStr r) ++ [m]
  ∧ (∀ k, k ≠ HStr r → chat_history w' !! k = chat_history w !! k)
  ∧ emitted (effects w (c, Message (VDict d)))
    = [(Ev_message (strip raw) username (VStr r) (now c) ∅, Room (VStr r))]
  ∧ outcome w (c, Message (VDict d)) = inr VNone
  ∧ active_users w' = active_users w
  ∧ typing_users w' = typing_users w.
Proof.
  intros Hu Hroom Hr Hty Hmsg Hne w' m. subst w' m. unfold history. unfold_m.
  rewrite Hu, Hroom, Hmsg. simpl.
  assert (eq_str (default (VStr "message") (assoc "type" d)) "private" = false) as Hnp.
  { apply eq_str_false. intros Heq. apply Hty.
    destruct (assoc "type" d); simpl in *; by subst. }
  destruct (assoc "type" d) as [ty|]; simpl in *;
    rewrite bool_decide_eq_false_2 by done; simpl; try rewrite Hnp; simpl;
    rewrite (py_in_elem_of r CHAT_ROOMS Hr); simpl.
  - case_decide as Hk; simpl.
    + rewrite lookup_insert_eq. simpl. rewrite lookup_insert_eq, Hk. simpl.
      split_and!; try done. intros k Hne'. by rewrite !lookup_insert_ne.
    + destruct (chat_history w !! HStr r) as [messages|] eqn:Hh; [|done]. simpl.
      rewrite lookup_insert_eq. simpl.
      split_and!; try done. intros k Hne'. by rewrite lookup_insert_ne.
  - case_decide as Hk; simpl.
    + rewrite lookup_insert_eq. simpl. rewrite lookup_insert_eq, Hk. simpl.
      split_and!; try done. intros k Hne'. by rewrite !lookup_insert_ne.
    + destruct (chat_history w !! HStr r) as [messages|] eqn:Hh; [|done]. simpl.
      rewrite lookup_insert_eq. simpl.
      split_and!; try done. intros k Hne'. by rewrite lookup_insert_ne.
Qed.

(** X9. A message whose text is blank once stripped is dropped without a
    trace, private or not and whatever its room: nothing is stored, sent or
    logged. *)
Theorem blank_message_dropped_silently
    (c : ctx) (d : list (string * value)) (raw username : string) (w : world) :
  current_user c = Some username →
  dict_get (VDict d) "msg" (VStr "") = inr (VStr raw) →
  strip raw = "" →
  step w (c, Message (VDict d)) = w
  ∧ outcome w (c, Message (VDict d)) = inr VNone
  ∧ effects w (c, Message (VDict d)) = [].
Proof.
  intros Hu Hmsg Hblank. unfold_m. rewrite Hu. simpl.
  destruct (assoc "room" d); simpl;
    destruct (assoc "type" d); simpl;
    destruct (assoc "msg" d); simplify_eq/=; rewrite Hblank; done.
Qed.

(** X10. A private message of a logged-in user, with a text that is not
    blank once stripped, to a name under which connections are registered
    is sent to one connection only, the first in the registry under that
    name, with the stripped text, the sender's name and the time.  It is
    not stored: the dictionaries stay as they were. *)
Theorem private_message_delivered_to_first_connection
    (c : ctx) (data : value) (raw t username s : string) (ud : user_data)
    (l1 l2 : list (string * user_data)) (w : world) :
  current_user c = Some username →
  dict_get data "type" (VStr "message") = inr (VStr "private") →
  dict_get data "msg" (VStr "") = inr (VStr raw) →
  strip raw ≠ "" →
  dict_get data "target" VNone = inr (VStr t) →
  t ≠ "" →
  active_users w = l1 ++ (s, ud) :: l2 →
  u_username ud = t →
  Forall (λ e, u_username e.2 ≠ t) l1 →
  step w (c, Message data) = w
  ∧ outcome w (c, Message data) = inr VNone
  ∧ emitted (effects w (c, Message data))
    = [(Ev_private_message (strip raw) username (VStr t) (now c), Room (VStr s))].
Proof.
  intros Hu Hty Hmsg Hne Htg Ht Hau Hud Hl1.
  assert (find (λ e, eq_str (VStr t) (u_username e.2)) (active_users w) = Some (s, ud))
    as Hfind.
  { rewrite Hau. clear Hau. induction Hl1 as [|e l1 He _ IH]; simpl.
    - subst. by rewrite bool_decide_eq_true_2.
    - rewrite bool_decide_eq_false_2 by congruence. done. }
  unfold_m. rewrite Hu, Hty, Hmsg, Htg. simpl.
  destruct (dict_get data "room" _) as [|room] eqn:Hroom; simpl.
  { destruct data; simplify_eq/=. by destruct (assoc "room" d). }
  rewrite bool_decide_eq_false_2 by done. simpl.
  rewrite bool_decide_eq_false_2 by done. simpl.
  rewrite Hfind. done.
Qed.

(** ** Who is sent what *)

Ltac handler_cases :=
  unfold_m; repeat (case_match; simpl in *; simplify_eq).

Ltac elem_cases H :=
  repeat (apply elem_of_cons in H as [H|H]; [simplify_eq|]);
  try (by apply elem_of_nil in H).

(** X11. A history is sent on a join only, to the connection that joins
    and to no other, and it is the history stored for the room. *)
Theorem history_sent_to_joiner_only
    (w : world) (c : ctx) (ev : event) (r : value) (msgs : list message) (to : target) :
  Emit (Ev_chat_history r msgs) to ∈ effects w (c, ev) →
  (∃ data, ev = Join data)
  ∧ to = Room (VStr (sid c))
  ∧ ∃ k, py_hash r = inr k ∧ chat_history w !! k = Some msgs.
Proof.
  intros H. destruct ev; handler_cases; elem_cases H.
  split_and!; eauto.
Qed.

(** X12. A private message is sent by a message event only, under the
    name of the logged-in user who sends it and with the time of the event,
    to one connection that is registered under the name it is addressed
    to. *)
Theorem private_message_sent_to_target_only
    (w : world) (c : ctx) (ev : event) (m sender ts : string) (recipient : value)
    (to : target) :
  Emit (Ev_private_message m sender recipient ts) to ∈ effects w (c, ev) →
  (∃ data, ev = Message data)
  ∧ current_user c = Some sender
  ∧ ts = now c
  ∧ m ≠ ""
  ∧ ∃ s ud, to = Room (VStr s)
            ∧ (s, ud) ∈ active_users w
            ∧ recipient = VStr (u_username ud).
Proof.
  intros H. destruct ev; handler_cases; elem_cases H.
  match goal with Hf : find _ _ = Some _ |- _ =>
    apply find_some in Hf as [Hin Heq] end.
  apply list_elem_of_In in Hin. apply eq_str_true in Heq.
  match goal with Hb : bool_decide _ = false |- _ =>
    apply bool_decide_eq_false in Hb end.
  split_and!; eauto.
Qed.

(** X13. A message is sent to a room by a message event only; it carries
    the name of the logged-in user who sends it (the payload has no say in
    it), the time of the event and no reactions, it goes to the room it
    names, a room of the catalog, and it is the message at the end of that
    room's history afterwards. *)
Theorem room_message_sent_as_stored
    (w : world) (c : ctx) (ev : event) (m username ts : string) (room : value)
    (rs : gmap hkey (list string)) (to : target) :
  Emit (Ev_message m username room ts rs) to ∈ effects w (c, ev) →
  (∃ data, ev = Message data)
  ∧ current_user c = Some username
  ∧ ts = now c
  ∧ m ≠ ""
  ∧ rs = ∅
  ∧ to = Room room
  ∧ py_in room CHAT_ROOMS = true
  ∧ ∃ k, py_hash room = inr k
         ∧ last (history (step w (c, ev)) k)
           = Some {| m_msg := m; m_username := username; m_timestamp := ts;
                     m_reactions := ∅ |}.
Proof.
  intros H. destruct ev; handler_cases; elem_cases H;
    match goal with Hb : bool_decide _ = false |- _ =>
      apply bool_decide_eq_false in Hb end;
    match goal with Hb : negb (py_in _ _) = false |- _ =>
      apply negb_false_iff in Hb end.
  - split_and!; eauto.
    eexists. split; [done|]. unfold history. simpl.
    rewrite lookup_insert_eq. simpl. by rewrite last_snoc.
  - split_and!; eauto.
    eexists. split; [done|]. unfold history. simpl.
    rewrite lookup_insert_eq. simpl. by rewrite last_snoc.
Qed.

(** ** Reactions *)

(** What [handle_reaction] does on a well-formed request, in full. *)
Lemma handle_reaction_request
    (c : ctx) (data room idx : value) (u : string) (k e : hkey) (i : Z) (w : world) :
  reaction_request c data = Some (u, k, i, e) →
  subscript data "room" = inr room →
  subscript data "index" = inr idx →
  handle_reaction c data w
  = match history w k !! Z.to_nat i with
    | Some m =>
        if bool_decide (0 ≤ i)%Z then
          match toggle u e (m_reactions m) with
          | inr r =>
              (inr VNone,
               set_chat_history
                 <[k := <[Z.to_nat i := set_reactions r m]> (history w k)]> w,
               [Emit (Ev_reaction_update idx r) (Room room)])
          | inl _ => (inr VNone, w, [])
          end
        else (inr VNone, w, [])
    | None => (inr VNone, w, [])
    end.
Proof.
  unfold reaction_request. intros Hreq Hroom Hidx. rewrite Hroom, Hidx in Hreq.
  destruct (subscript data "emoji") as [|emoji] eqn:Hemoji; [done|].
  destruct (current_user c) as [user|] eqn:Hu; [|done].
  destruct (py_hash room) as [|k0] eqn:Hk; [done|].
  destruct (as_int idx) as [|i0] eqn:Hi; [done|].
  destruct (py_hash emoji) as [|e0] eqn:He; [done|]. simplify_eq.
  unfold history. unfold_m. rewrite Hroom, Hidx, Hemoji, Hu, Hk. simpl.
  destruct (chat_history w !! k) as [messages|] eqn:Hh; simpl; [|done].
  rewrite Hi. simpl.
  destruct (bool_decide (0 ≤ i)%Z) eqn:Hlo; simpl.
  - destruct (bool_decide (i < Z.of_nat (length messages))%Z) eqn:Hhi; simpl.
    + destruct (messages !! Z.to_nat i) as [m|] eqn:Hm; simpl.
      * rewrite He. simpl.
        destruct (toggle_spec u e (m_reactions m)) as (r & -> & _). done.
      * apply bool_decide_eq_true in Hlo, Hhi.
        apply lookup_ge_None in Hm. lia.
    + apply bool_decide_eq_false in Hhi.
      rewrite (proj2 (lookup_ge_None messages (Z.to_nat i))) by lia. done.
  - by destruct (messages !! Z.to_nat i).
Qed.

(** X14. A reaction to an index at which the room has no message, below
    zero, past the end or in a room without history, is dropped without a
    trace: nothing is stored, sent or logged. *)
Theorem reaction_out_of_range_dropped_silently
    (c : ctx) (data : value) (u : string) (k e : hkey) (i : Z) (w : world) :
  reaction_request c data = Some (u, k, i, e) →
  ¬ (0 ≤ i < Z.of_nat (length (history w k)))%Z →
  step w (c, React_to_message data) = w
  ∧ outcome w (c, React_to_message data) = inr VNone
  ∧ effects w (c, React_to_message data) = [].
Proof.
  intros Hreq Hout.
  assert (∃ room idx, subscript data "room" = inr room
                      ∧ subscript data "index" = inr idx) as (room & idx & Hr & Hi).
  { unfold reaction_request in Hreq.
    destruct (subscript data "room"); [done|].
    destruct (subscript data "index"); [done|]. eauto. }
  unfold step, effects, outcome, handle. simpl.
  rewrite (handle_reaction_request c data room idx u k e i w Hreq Hr Hi).
  destruct (history w k !! Z.to_nat i) as [m|] eqn:Hm; [|done].
  case_bool_decide as Hlo; [|done].
  apply lookup_lt_Some in Hm. lia.
Qed.

(** X15. A reaction to a message that is there toggles the user on the
    emoji of that message and sends to the room the index as it came and
    the whole mapping of reactions now stored for the message.  No other
    history changes, nor do the registry and the typing sets. *)
Theorem reaction_stored_and_sent
    (c : ctx) (data room idx : value) (u : string) (k e : hkey) (i : Z)
    (m : message) (w : world) :
  reaction_request c data = Some (u, k, i, e) →
  subscript data "room" = inr room →
  subscript data "index" = inr idx →
  (0 ≤ i)%Z →
  history w k !! Z.to_nat i = Some m →
  let w' := step w (c, React_to_message data) in
  ∃ r, toggle u e (m_reactions m) = inr r
       ∧ history w' k = <[Z.to_nat i := set_reactions r m]> (history w k)
       ∧ (∀ k', k' ≠ k → chat_history w' !! k' = chat_history w !! k')
       ∧ effects w (c, React_to_message data)
         = [Emit (Ev_reaction_update idx r) (Room room)]
       ∧ outcome w (c, React_to_message data) = inr VNone
       ∧ active_users w' = active_users w
       ∧ typing_users w' = typing_users w.
Proof.
  intros Hreq Hroom Hidx Hlo Hm w'. subst w'.
  unfold step, effects, outcome, handle. simpl.
  rewrite (handle_reaction_request c data room idx u k e i w Hreq Hroom Hidx).
  rewrite Hm. rewrite bool_decide_eq_true_2 by done.
  destruct (toggle_spec u e (m_reactions m)) as (r & Hr & _). rewrite Hr.
  exists r. simpl. split_and!; try done.
  - unfold history at 1. simpl. by rewrite lookup_insert_eq.
  - intros k' Hk'. by rewrite lookup_insert_ne.
Qed.

Lemma list_remove_snoc (u : string) (l : list string) :
  u ∉ l → list_remove u (l ++ [u]) = inr l.
Proof.
  induction l as [|y l IH]; simpl; intros Hu.
  - by rewrite bool_decide_eq_true_2.
  - apply not_elem_of_cons in Hu as [Hne Hu].
    rewrite bool_decide_eq_false_2 by done. by rewrite IH.
Qed.

(** Reacting and taking the reaction back restores the mapping. *)
Lemma toggle_twice (u : string) (e : hkey) (r : gmap hkey (list string)) :
  r !! e ≠ Some [] →
  u ∉ default [] (r !! e) →
  ∃ r1, toggle u e r = inr r1 ∧ toggle u e r1 = inr r.
Proof.
  clear strip set_list_perm set_list.
  intros Hne Hu. unfold toggle at 1. case_decide as Hnone.
  - rewrite lookup_insert_eq. rewrite bool_decide_eq_false_2 by apply not_elem_of_nil.
    eexists. split; [done|]. unfold toggle.
    rewrite insert_insert_eq. rewrite decide_False by by rewrite lookup_insert_eq.
    rewrite lookup_insert_eq. simpl.
    rewrite bool_decide_eq_true_2 by (by apply list_elem_of_singleton).
    rewrite bool_decide_eq_true_2 by done. by rewrite delete_insert_id.
  - destruct (r !! e) as [l|] eqn:Hl; [|done]. simpl in Hu.
    rewrite bool_decide_eq_false_2 by done.
    eexists. split; [done|]. unfold toggle.
    rewrite decide_False by by rewrite lookup_insert_eq.
    rewrite lookup_insert_eq.
    rewrite bool_decide_eq_true_2 by (apply elem_of_app; right; by apply list_elem_of_singleton).
    rewrite list_remove_snoc by done.
    destruct l as [|y l]; [done|]. by rewrite insert_insert_eq, insert_id.
Qed.

(** X16. In a state the engine can be in, a user who is not among those
    recorded for an emoji of a message and sends the same reaction twice
    gets back the state there was, whole. *)
Theorem react_then_unreact_restores_state
    (c : ctx) (data : value) (u : string) (k e : hkey) (i : Z) (w : world) :
  reachable w →
  reaction_request c data = Some (u, k, i, e) →
  u ∉ reactors w k (Z.to_nat i) e →
  step (step w (c, React_to_message data)) (c, React_to_message data) = w.
Proof.
  intros Hw Hreq Hu. rewrite !step_react, Hreq. unfold react at 2.
  destruct (chat_history w !! k) as [messages|] eqn:Hh.
  2:{ unfold react. by rewrite Hh. }
  destruct (bool_decide (0 ≤ i)%Z && _) eqn:Hrange.
  2:{ unfold react. by rewrite Hh, Hrange. }
  destruct (messages !! Z.to_nat i) as [m|] eqn:Hm.
  2:{ unfold react. by rewrite Hh, Hrange, Hm. }
  assert (history w k !! Z.to_nat i = Some m) as Hm'.
  { unfold history. by rewrite Hh. }
  unfold reactors in Hu. rewrite Hm' in Hu.
  destruct (toggle_twice u e (m_reactions m)) as (r1 & Hr1 & Hr); [|done|].
  { by eapply (reachable_no_empty w Hw). }
  rewrite Hr1. unfold react. simpl. rewrite lookup_insert_eq.
  rewrite length_insert, Hrange.
  rewrite list_lookup_insert_eq by (by eapply lookup_lt_Some). simpl. rewrite Hr.
  unfold set_chat_history. simpl.
  rewrite list_insert_insert_eq, insert_insert_eq.
  assert (set_reactions (m_reactions m) (set_reactions r1 m) = m) as ->
    by by destruct m.
  rewrite list_insert_id by done. rewrite insert_id by done. by destruct w.
Qed.

(** X17. In a state the engine can be in, every emoji recorded on a
    message has at least one name, and no name twice. *)
Theorem reachable_reactions_well_formed
    (w : world) (k e : hkey) (n : nat) (m : message) (l : list string) :
  reachable w →
  history w k !! n = Some m →
  m_reactions m !! e = Some l →
  l ≠ [] ∧ NoDup l.
Proof.
  intros Hw Hm Hl. split.
  - intros ->. by eapply (reachable_no_empty w Hw).
  - pose proof (reachable_reactors_NoDup w k n e Hw) as Hnd.
    unfold reactors in Hnd. by rewrite Hm, Hl in Hnd.
Qed.

(** X18. One event changes, of a message that is there, at most the
    names on one emoji: the text, the author and the time stay; an event
    other than a well-formed reaction to that very message leaves it as it
    is; and a reaction to it leaves its other emojis as they are. *)
Theorem event_changes_one_reaction_list_at_most
    (w : world) (c : ctx) (ev : event) (k : hkey) (n : nat) (m : message) :
  history w k !! n = Some m →
  ∃ m', history (step w (c, ev)) k !! n = Some m'
        ∧ content m' = content m
        ∧ match ev with
          | React_to_message data =>
              match reaction_request c data with
              | Some (u, k0, i0, e) =>
                  (k0 ≠ k ∨ i0 ≠ Z.of_nat n → m' = m)
                  ∧ ∀ e', e' ≠ e → m_reactions m' !! e' = m_reactions m !! e'
              | None => m' = m
              end
          | _ => m' = m
          end.
Proof.
  intros Hm. exists (touch (c, ev) k n m).
  split; [by apply step_lookup_Some|]. split; [apply content_touch|].
  unfold touch. simpl. destruct ev; try done.
  destruct (reaction_request c data) as [[[[u k0] i0] e]|]; [|done].
  case_decide as Hd.
  - destruct (toggle_spec u e (m_reactions m)) as (r & -> & Hother & _).
    split; [naive_solver|]. done.
  - done.
Qed.

(** ** Typing *)

(** The state change of a typing event. *)
Lemma step_typing (c : ctx) (data : value) (w : world) :
  step w (c, Typing data)
  = match current_user c, subscript data "room", subscript data "typing" with
    | Some u, inr room, inr t =>
        match py_hash room with
        | inr k =>
            let s := default ∅ (typing_users w !! k) in
            set_typing_users
              <[k := if truthy t then s ∪ {[u]} else s ∖ {[u]}]> w
        | inl _ => w
        end
    | _, _, _ => w
    end.
Proof.
  unfold_m. destruct (current_user c) as [u|]; simpl; [|done].
  destruct (subscript data "room") as [|room]; simpl; [done|].
  destruct (subscript data "typing") as [|t]; simpl; [done|].
  destruct (py_hash room) as [|k]; simpl; [done|].
  case_decide as Hk; simpl.
  - rewrite lookup_insert_eq. simpl. rewrite lookup_insert_eq. simpl.
    rewrite Hk. simpl. unfold set_typing_users. simpl. rewrite insert_insert_eq.
    by destruct (typing_status _).
  - destruct (typing_users w !! k) as [s|] eqn:Hs; [|done]. simpl.
    rewrite lookup_insert_eq. simpl. by destruct (typing_status _).
Qed.


(** X20. A typing event sent twice leaves the state the first one made. *)
Theorem typing_event_idempotent (c : ctx) (data : value) (w : world) :
  step (step w (c, Typing data)) (c, Typing data) = step w (c, Typing data).
Proof.
  clear set_list_perm.
  rewrite !step_typing.
  destruct (current_user c) as [u|]; [|done].
  destruct (subscript data "room") as [|room]; [done|].
  destruct (subscript data "typing") as [|t]; [done|].
  destruct (py_hash room) as [|k]; [done|]. simpl.
  rewrite lookup_insert_eq. simpl. unfold set_typing_users. simpl.
  rewrite insert_insert_eq. do 2 f_equal.
  destruct (truthy t); set_solver.
Qed.

(** X21. After a user starts and then stops typing in a room, the
    typing set of the room is the one there was, without the user; the
    typing sets of the other rooms are as they were.  Nothing but a typing
    event of the user takes the user out of the set. *)
Theorem typing_start_then_stop
    (c : ctx) (data1 data2 room t1 t2 : value) (k : hkey) (u : string) (w : world) :
  current_user c = Some u →
  subscript data1 "room" = inr room →
  subscript data2 "room" = inr room →
  py_hash room = inr k →
  subscript data1 "typing" = inr t1 →
  subscript data2 "typing" = inr t2 →
  truthy t1 = true →
  truthy t2 = false →
  let w1 := step w (c, Typing data1) in
  let w2 := step w1 (c, Typing data2) in
  u ∈ default ∅ (typing_users w1 !! k)
  ∧ default ∅ (typing_users w2 !! k) = default ∅ (typing_users w !! k) ∖ {[u]}
  ∧ ∀ k', k' ≠ k → typing_users w2 !! k' = typing_users w !! k'.
Proof.
  clear set_list_perm.
  intros Hu Hr1 Hr2 Hk Ht1 Ht2 Hon Hoff w1 w2. subst w1 w2.
  rewrite !step_typing, Hu, Hr1, Hr2, Ht1, Ht2, Hk, Hon, Hoff. simpl.
  rewrite !lookup_insert_eq. simpl. split_and!.
  - set_solver.
  - set_solver.
  - intros k' Hk'. by rewrite !lookup_insert_ne.
Qed.

(** X22. With sets iterated element by element, a typing event fails
    exactly when the user is anonymous, a field is missing from the payload
    (or the payload is no dict) or the room cannot be a key; when it fails,
    nothing has changed and nothing has been sent. *)
Theorem typing_fails_exactly_on_malformed_requests
    (c : ctx) (data : value) (w : world) :
  ((∃ e, outcome w (c, Typing data) = inl e) ↔
   (current_user c = None
    ∨ (∃ e, subscript data "room" = inl e)
    ∨ (∃ e, subscript data "typing" = inl e)
    ∨ (∃ room e, subscript data "room" = inr room ∧ py_hash room = inl e)))
  ∧ ((∃ e, outcome w (c, Typing data) = inl e) →
     step w (c, Typing data) = w ∧ effects w (c, Typing data) = []).
Proof using set_list_perm.
  unfold_m.
  destruct (current_user c) as [u|] eqn:Hu; simpl; [|naive_solver].
  destruct (subscript data "room") as [|room]; simpl; [naive_solver|].
  destruct (subscript data "typing") as [|t]; simpl; [naive_solver|].
  destruct (py_hash room) as [|k] eqn:Hroom; simpl; [naive_solver|].
  assert (∀ X, ∃ msg, typing_status X = inr msg) as Hstatus.
  { intros X. destruct (typing_status_spec X) as (msg & ? & _). eauto. }
  case_decide as Hk; simpl.
  - rewrite !lookup_insert_eq. simpl. rewrite !lookup_insert_eq. simpl.
    destruct (Hstatus ((if truthy t then ∅ ∪ {[u]} else ∅ ∖ {[u]}) ∖ {[u]}))
      as [msg ->]. simpl. split; [split|]; try (by intros [e He]).
    intros [H|[[e H]|[[e H]|(room0 & e & H1 & H2)]]]; try done. congruence.
  - destruct (typing_users w !! k) as [s|] eqn:Hs; [|done]. simpl.
    rewrite !lookup_insert_eq. simpl.
    destruct (Hstatus ((if truthy t then s ∪ {[u]} else s ∖ {[u]}) ∖ {[u]}))
      as [msg ->]. simpl. split; [split|]; try (by intros [e He]).
    intros [H|[[e H]|[[e H]|(room0 & e & H1 & H2)]]]; try done. congruence.
Qed.

(** ** Which handler writes where *)

(** Each handler writes to one dictionary. *)
Lemma step_frame (w : world) (c : ctx) (ev : event) :
  match ev with
  | Connect | Disconnect | Join _ | Leave _ =>
      typing_users (step w (c, ev)) = typing_users w
      ∧ chat_history (step w (c, ev)) = chat_history w
  | Message _ | React_to_message _ =>
      active_users (step w (c, ev)) = active_users w
      ∧ typing_users (step w (c, ev)) = typing_users w
  | Typing _ =>
      active_users (step w (c, ev)) = active_users w
      ∧ chat_history (step w (c, ev)) = chat_history w
  end.
Proof.
  destruct ev.
  - handler_cases; done.
  - handler_cases; done.
  - handler_cases; done.
  - handler_cases; done.
  - handler_cases; done.
  - rewrite step_react. destruct (reaction_request c data) as [[[[u k] i] e]|]; [|done].
    unfold react. by repeat case_match.
  - rewrite step_typing. by repeat case_match.
Qed.

(** X23. Each handler writes to its own dictionary only: connect,
    disconnect, join and leave leave the typing sets and the histories as
    they are, message and reaction leave the registry and the typing sets,
    typing leaves the registry and the histories.  So a disconnect, a leave
    or a message takes nobody out of a typing set. *)
Theorem handlers_write_their_own_dictionary (w : world) (c : ctx) (ev : event) :
  match ev with
  | Connect | Disconnect | Join _ | Leave _ =>
      typing_users (step w (c, ev)) = typing_users w
      ∧ chat_history (step w (c, ev)) = chat_history w
  | Message _ | React_to_message _ =>
      active_users (step w (c, ev)) = active_users w
      ∧ typing_users (step w (c, ev)) = typing_users w
  | Typing _ =>
      active_users (step w (c, ev)) = active_users w
      ∧ chat_history (step w (c, ev)) = chat_history w
  end.
Proof. apply step_frame. Qed.

(** ** Requests that are not well formed *)

(** X24. A join, a leave, a message or a reaction that comes from an
    anonymous user, or whose payload is not a dict, changes nothing and
    sends nothing; the fault is logged and the handler returns. *)
Theorem malformed_request_dropped (c : ctx) (data : value) (w : world) (ev : event) :
  current_user c = None ∨ (∀ d, data ≠ VDict d) →
  ev = Join data ∨ ev = Leave data ∨ ev = Message data ∨ ev = React_to_message data →
  step w (c, ev) = w
  ∧ outcome w (c, ev) = inr VNone
  ∧ emitted (effects w (c, ev)) = []
  ∧ only_logs (effects w (c, ev)) = true.
Proof.
  intros [Hu|Hnd] Hev.
  - destruct Hev as [-> | [-> | [-> | ->]]]; unfold_m; rewrite Hu; simpl; try done.
    destruct (subscript data "room"); simpl; [done|].
    destruct (subscript data "index"); simpl; [done|].
    by destruct (subscript data "emoji").
  - assert (∀ key, subscript data key = inl TypeError) as Hsub.
    { intros key. destruct data; try done. by destruct (Hnd d). }
    assert (∀ key dflt, dict_get data key dflt = inl AttributeError) as Hget.
    { intros key dflt. destruct data; try done. by destruct (Hnd d). }
    destruct Hev as [-> | [-> | [-> | ->]]]; unfold_m; rewrite ?Hsub, ?Hget; simpl;
      by destruct (current_user c).
Qed.

(** ** More of what every reachable state satisfies *)

Lemma Forall_od_set {A : Type} (P : string * A → Prop) (k : string) (a : A)
    (d : list (string * A)) :
  P (k, a) → Forall P d → Forall P (od_set k a d).
Proof.
  intros Ha Hd. induction Hd as [|[k' a'] d Hx Hd IH]; simpl.
  - by apply Forall_singleton.
  - case_bool_decide; by apply Forall_cons.
Qed.

Lemma Forall_od_del {A : Type} (P : string * A → Prop) (k : string)
    (d : list (string * A)) :
  Forall P d → Forall P (od_del k d).
Proof.
  intros Hd. induction Hd as [|[k' a'] d Hx Hd IH]; simpl; [done|].
  case_bool_decide; [done|]. by apply Forall_cons.
Qed.

(** X25. In a state the engine can be in, the room recorded for a
    connection, if there is one, is a room of the catalog. *)
Theorem reachable_rooms_in_catalog
    (w : world) (s : string) (ud : user_data) (r : value) :
  reachable w →
  (s, ud) ∈ active_users w →
  u_room ud = Some r →
  py_in r CHAT_ROOMS = true.
Proof.
  intros Hw Hin Hr.
  assert (Forall (λ e, ∀ r, u_room e.2 = Some r → py_in r CHAT_ROOMS = true)
            (active_users w)) as Hall.
  { clear s ud r Hin Hr. revert w Hw. apply reachable_ind; [by apply Forall_nil|].
    intros w [c ev] _ Hall.
    pose proof (step_frame w c ev) as Hframe.
    destruct ev; try (by destruct Hframe as [-> _]).
    - unfold_m. destruct (current_user c); simpl; [|done].
      by apply Forall_od_set.
    - unfold_m. destruct (assoc (sid c) (active_users w)); simpl; [|done].
      by apply Forall_od_del.
    - unfold_m. destruct (current_user c); simpl; [|done].
      destruct (subscript data "room") as [|room]; simpl; [done|].
      destruct (py_in room CHAT_ROOMS) eqn:Hcat; simpl; [|done].
      destruct (assoc (sid c) (active_users w)); simpl; [|done].
      assert (Forall (λ e, ∀ r, u_room e.2 = Some r → py_in r CHAT_ROOMS = true)
                (od_set (sid c) (set_room (Some room) u) (active_users w))) as Hset.
      { apply Forall_od_set; [|done]. simpl. by intros ? [= <-]. }
      destruct (py_hash room) as [|k]; simpl; [done|].
      by destruct (chat_history w !! k).
    - unfold_m. destruct (current_user c); simpl; [|done].
      destruct (subscript data "room") as [|room]; simpl; [done|].
      destruct (assoc (sid c) (active_users w)); simpl; [|done].
      by apply Forall_od_set. }
  rewrite Forall_forall in Hall. by apply (Hall (s, ud) Hin r).
Qed.

Lemma py_in_hash (v : value) (k : hkey) (l : list string) :
  py_in v l = true → py_hash v = inr k → ∃ r, v = VStr r ∧ k = HStr r ∧ r ∈ l.
Proof.
  unfold py_in. intros (r & Hin & Heq)%existsb_exists Hk.
  apply eq_str_true in Heq as ->. simpl in Hk. simplify_eq.
  exists r. split_and!; [done..|]. by apply list_elem_of_In.
Qed.

(** A message event leaves the histories alone or appends to the history
    of a catalog room one message, with a text that is not empty and
    without reactions. *)
Lemma step_message_detail (c : ctx) (data : value) (w : world) :
  chat_history (step w (c, Message data)) = chat_history w
  ∨ ∃ r m, r ∈ CHAT_ROOMS
           ∧ m_msg m ≠ ""
           ∧ m_reactions m = ∅
           ∧ chat_history (step w (c, Message data))
             = <[HStr r := history w (HStr r) ++ [m]]> (chat_history w).
Proof.
  unfold history. unfold_m.
  destruct (current_user c); simpl; [|by left].
  destruct (dict_get data "room" _) as [|room]; simpl; [by left|].
  destruct (dict_get data "type" _) as [|msg_type]; simpl; [by left|].
  destruct (dict_get data "msg" _) as [|raw]; simpl; [by left|].
  destruct (py_strip raw) as [|message]; simpl; [by left|].
  case_bool_decide as Hblank; simpl; [by left|].
  destruct (eq_str msg_type "private"); simpl.
  - destruct (dict_get data "target" _) as [|target_user]; simpl; [by left|].
    destruct (truthy target_user); simpl; [|by left].
    destruct (find _ _) as [[? ?]|]; simpl; by left.
  - destruct (py_in room CHAT_ROOMS) eqn:Hcat; simpl; [|by left].
    destruct (py_hash room) as [|k] eqn:Hk; simpl; [by left|].
    destruct (py_in_hash _ _ _ Hcat Hk) as (r & -> & -> & Hr).
    case_decide as Hnone; simpl.
    + rewrite lookup_insert_eq. simpl. right. exists r. eexists.
      split_and!; [done| | |rewrite Hnone, insert_insert_eq; simpl; reflexivity]; done.
    + destruct (chat_history w !! HStr r) eqn:Hsome; [|done]. simpl.
      right. exists r. rewrite Hsome. eexists.
      split_and!; [done| | |reflexivity]; done.
Qed.

(** X26. In a state the engine can be in, every history that is stored
    is the history of a room of the catalog, holds at least one message,
    and holds no message whose text is empty. *)
Theorem reachable_histories_well_formed
    (w : world) (k : hkey) (msgs : list message) :
  reachable w →
  chat_history w !! k = Some msgs →
  (∃ r, k = HStr r ∧ r ∈ CHAT_ROOMS)
  ∧ msgs ≠ []
  ∧ Forall (λ m, m_msg m ≠ "") msgs.
Proof.
  intros Hw. revert w Hw k msgs. apply (reachable_ind (λ w, ∀ k msgs,
    chat_history w !! k = Some msgs →
    (∃ r, k = HStr r ∧ r ∈ CHAT_ROOMS) ∧ msgs ≠ [] ∧ Forall (λ m, m_msg m ≠ "") msgs)).
  { intros k msgs. simpl. by rewrite lookup_empty. }
  intros w [c ev] _ IH k msgs.
  pose proof (step_frame w c ev) as Hframe.
  destruct ev; try (destruct Hframe as [_ ->]; by apply IH).
  - (* a message *)
    destruct (step_message_detail c data w) as [->|(r & m & Hr & Hm & _ & ->)];
      [by apply IH|].
    destruct (decide (k = HStr r)) as [->|Hk];
      [|rewrite lookup_insert_ne by done; by apply IH].
    rewrite lookup_insert_eq. intros [= <-]. split_and!.
    + by exists r.
    + by destruct (history w (HStr r)).
    + apply Forall_app. split; [|by apply Forall_singleton].
      unfold history. destruct (chat_history w !! HStr r) as [l|] eqn:Hl; [|done].
      by destruct (IH _ _ Hl) as (_ & _ & Hall).
  - (* a reaction *)
    rewrite step_react. destruct (reaction_request c data) as [[[[u k0] i] e]|];
      [|by apply IH].
    unfold react. destruct (chat_history w !! k0) as [messages|] eqn:Hk0; [|by apply IH].
    destruct (_ && _); [|by apply IH].
    destruct (messages !! Z.to_nat i) as [m|] eqn:Hm; [|by apply IH].
    destruct (toggle u e (m_reactions m)); [by apply IH|]. simpl.
    destruct (IH _ _ Hk0) as (Hcat & Hne & Hall).
    destruct (decide (k = k0)) as [->|Hk]; [|rewrite lookup_insert_ne by done; by apply IH].
    rewrite lookup_insert_eq. intros [= <-]. split_and!; [done| |].
    + intros Hnil. apply (f_equal length) in Hnil. rewrite length_insert in Hnil.
      by destruct messages.
    + apply Forall_insert; [done|]. simpl.
      rewrite Forall_forall in Hall. apply Hall. by eapply list_elem_of_lookup_2.
Qed.

Lemma prefix_of_lookup {A : Type} (l l' : list A) :
  (∀ n x, l !! n = Some x → l' !! n = Some x) → l `prefix_of` l'.
Proof.
  intros Hl. exists (drop (length l) l').
  rewrite <- (take_drop (length l) l') at 1. f_equal.
  apply list_eq. intros n. destruct (l !! n) as [x|] eqn:Hn.
  - rewrite lookup_take_lt by (by eapply lookup_lt_Some). by apply Hl.
  - apply lookup_ge_None in Hn. apply lookup_ge_None.
    rewrite length_take. lia.
Qed.

(** X27. No sequence of events deletes, replaces or reorders a message:
    the texts, authors and times of a room's history are a prefix of those
    of its history at any later time. *)
Theorem history_only_grows (w : world) (evs : list (ctx * event)) (k : hkey) :
  map content (history w k) `prefix_of` map content (history (run w evs) k).
Proof.
  apply prefix_of_lookup. intros n x Hx.
  rewrite list_lookup_fmap in *.
  destruct (history w k !! n) as [m|] eqn:Hm; [|done]. simpl in Hx. simplify_eq.
  destruct (run_lookup_Some evs w k n m Hm) as (m' & -> & Hc). simpl. by rewrite Hc.
Qed.

(** ** Accounts *)

Lemma first_by_username_None (username : string) (db : list User) :
  first_by_username username db = None → username ∉ map acc_username db.
Proof.
  unfold first_by_username. induction db as [|u db IH]; simpl.
  - intros _. apply not_elem_of_nil.
  - case_bool_decide; [done|]. intros Hf. apply not_elem_of_cons. split; [done|].
    by apply IH.
Qed.

Lemma first_by_email_None (email : string) (db : list User) :
  first_by_email email db = None → email ∉ map acc_email db.
Proof.
  unfold first_by_email. induction db as [|u db IH]; simpl.
  - intros _. apply not_elem_of_nil.
  - case_bool_decide; [done|]. intros Hf. apply not_elem_of_cons. split; [done|].
    by apply IH.
Qed.

Lemma first_by_email_snoc (email : string) (db : list User) (u : User) :
  first_by_email email db = None →
  acc_email u = email →
  first_by_email email (db ++ [u]) = Some u.
Proof.
  unfold first_by_email. intros Hdb Hu. induction db as [|v db IH]; simpl in *.
  - by rewrite bool_decide_eq_true_2.
  - destruct (bool_decide (acc_email v = email)); [done|]. by apply IH.
Qed.

Lemma first_by_email_Some (email : string) (db : list User) (u : User) :
  first_by_email email db = Some u → u ∈ db ∧ acc_email u = email.
Proof.
  unfold first_by_email. intros [Hin Heq]%find_some. split.
  - by apply list_elem_of_In.
  - by apply bool_decide_eq_true in Heq.
Qed.

Lemma next_id_fresh (db : list User) : next_id db ∉ map acc_id db.
Proof.
  assert (∀ i, i ∈ map acc_id db → (i < next_id db)%Z) as Hlt.
  { unfold next_id. induction db as [|u db IH]; simpl; intros i.
    - by intros ?%elem_of_nil.
    - intros [->|Hi]%elem_of_cons; [lia|]. specialize (IH i Hi). lia. }
  intros Hin. specialize (Hlt _ Hin). lia.
Qed.

(** X28. A signup adds to the table at most one row, at its end, and
    only on a POST with its three fields whose name and email, stripped,
    are borne by no row; the row has them, a new key and the hash of the
    password, and the answer sends to the login page.  So names, emails and
    keys that were pairwise distinct stay pairwise distinct. *)
Theorem signup_keeps_accounts_unique
    (bcrypt : Bcrypt) (salt : string) (req : request) (db : list User) :
  NoDup (map acc_username db) →
  NoDup (map acc_email db) →
  NoDup (map acc_id db) →
  let db' := (signup bcrypt salt req db).1.2 in
  NoDup (map acc_username db')
  ∧ NoDup (map acc_email db')
  ∧ NoDup (map acc_id db')
  ∧ (db' = db
     ∨ ∃ raw_username raw_email password h,
         method req = "POST"
         ∧ form_get req "username" = inr raw_username
         ∧ form_get req "email" = inr raw_email
         ∧ form_get req "password" = inr password
         ∧ (strip raw_username ∉ map acc_username db)
         ∧ (strip raw_email ∉ map acc_email db)
         ∧ generate_password_hash bcrypt salt password = inr h
         ∧ (signup bcrypt salt req db).1.1 = inr (Redirect "login")
         ∧ db' = db ++ [ {| acc_id := next_id db;
                            acc_username := strip raw_username;
                            acc_email := strip raw_email;
                            acc_password_hash := h |} ]).
Proof.
  intros Hn He Hi db'. subst db'. unfold signup.
  case_bool_decide as Hpost; simpl; [|by split_and!; try left].
  destruct (form_get req "username") as [|raw_username]; simpl;
    [by split_and!; try left|].
  destruct (form_get req "email") as [|raw_email]; simpl;
    [by split_and!; try left|].
  destruct (form_get req "password") as [|password]; simpl;
    [by split_and!; try left|].
  destruct (first_by_username _ db) eqn:Hfu; simpl; [by split_and!; try left|].
  destruct (first_by_email _ db) eqn:Hfe; simpl; [by split_and!; try left|].
  destruct (generate_password_hash bcrypt salt password) as [|h] eqn:Hh; simpl;
    [by split_and!; try left|].
  apply first_by_username_None in Hfu. apply first_by_email_None in Hfe.
  rewrite !map_app. simpl. split_and!.
  - apply NoDup_app. split_and!; [done| |apply NoDup_singleton].
    by intros x Hx ->%list_elem_of_singleton.
  - apply NoDup_app. split_and!; [done| |apply NoDup_singleton].
    by intros x Hx ->%list_elem_of_singleton.
  - apply NoDup_app. split_and!; [done| |apply NoDup_singleton].
    intros x Hx ->%list_elem_of_singleton. by apply (next_id_fresh db).
  - right. by exists raw_username, raw_email, password, h.
Qed.

(** X29. With a hasher whose check accepts the hashes it makes: after a
    signup that was accepted, a login POST with the same email and password
    fields logs in the user of the new row and sends to the index page. *)
Theorem login_after_signup
    (bcrypt : Bcrypt) (salt : string) (req req' : request) (db db' : list User)
    (flashed : list string) :
  bcrypt_sound bcrypt →
  signup bcrypt salt req db = (inr (Redirect "login"), db', flashed) →
  method req' = "POST" →
  form_get req' "email" = form_get req "email" →
  form_get req' "password" = form_get req "password" →
  ∃ user, login bcrypt req' db' = (inr (Redirect "index"), Some user, [])
          ∧ last db' = Some user
          ∧ ∃ raw_username, form_get req "username" = inr raw_username
                            ∧ acc_username user = strip raw_username.
Proof.
  intros Hsound Hsignup Hpost Hemail Hpw. unfold signup in Hsignup.
  case_bool_decide; [|done].
  destruct (form_get req "username") as [|raw_username]; [done|].
  destruct (form_get req "email") as [|raw_email]; [done|].
  destruct (form_get req "password") as [|password]; [done|].
  destruct (first_by_username _ db); [done|].
  destruct (first_by_email _ db) eqn:Hfe; [done|].
  destruct (generate_password_hash bcrypt salt password) as [|h] eqn:Hh; [done|].
  simplify_eq. eexists. unfold login.
  rewrite bool_decide_eq_true_2 by done. rewrite Hemail, Hpw.
  rewrite (first_by_email_snoc _ db _ Hfe) by done. simpl.
  rewrite (Hsound _ _ _ Hh). rewrite last_snoc. split_and!; eauto.
Qed.

(** X30. A login never logs in but a user of the table, on a POST whose
    email, stripped, is that of the user, the first row with that email,
    and whose password passes the check against the user's hash; it then
    sends to the index page and flashes nothing. *)
Theorem login_needs_matching_account
    (bcrypt : Bcrypt) (req : request) (db : list User) (r : res response)
    (user : User) (flashed : list string) :
  login bcrypt req db = (r, Some user, flashed) →
  r = inr (Redirect "index")
  ∧ flashed = []
  ∧ method req = "POST"
  ∧ user ∈ db
  ∧ ∃ raw_email password,
      form_get req "email" = inr raw_email
      ∧ form_get req "password" = inr password
      ∧ first_by_email (strip raw_email) db = Some user
      ∧ acc_email user = strip raw_email
      ∧ check_password_hash bcrypt (acc_password_hash user) password = true.
Proof.
  unfold login. intros Hlogin.
  case_bool_decide as Hpost; [|done].
  destruct (form_get req "email") as [|raw_email]; [done|].
  destruct (form_get req "password") as [|password]; [done|].
  destruct (first_by_email _ db) as [u|] eqn:Hfe; [|done].
  destruct (check_password_hash bcrypt _ password) eqn:Hcheck; [|done].
  simplify_eq. destruct (first_by_email_Some _ _ _ Hfe) as [Hin Heq].
  split_and!; try done. by exists raw_email, password.
Qed.

End Engine.

(** ** The theorems at work on the scenario *)

(** The engine with the byte-string [strip] and sets iterated in the
    order of [elements], after the scenario. *)
Local Abbreviation engine_step := (step strip_ascii elements).
Local Abbreviation engine_run := (run strip_ascii elements).
Local Abbreviation engine_effects := (effects strip_ascii elements).
Local Abbreviation engine_outcome := (outcome strip_ascii elements).
Local Abbreviation scene := (run strip_ascii elements initial scenario).

Lemma scene_reachable : reachable strip_ascii elements scene.
Proof. by exists scenario. Qed.

Lemma toggle_even_restores_reactors_witness :
  list_to_set (reactors
    (engine_run scene [ (bob, React_to_message thumbs_up); (alice, Message say_hi);
                        (bob, React_to_message thumbs_up) ])
    (HStr "Open Mic") 0 (HStr "+1"))
  =@{gset string} list_to_set (reactors scene (HStr "Open Mic") 0 (HStr "+1")).
Proof.
  apply (toggle_even_restores_reactors strip_ascii elements scene _ "bob").
  - apply scene_reachable.
  - vm_compute. lia.
  - repeat (apply List.Forall_cons; [vm_compute; auto|]). apply List.Forall_nil.
  - vm_compute. reflexivity.
Defined.

Lemma reactions_never_empty_witness :
  no_empty_reactions (engine_step scene (carol, React_to_message thumbs_up))
  ∧ ∀ u e r, r !! e = Some [u] → toggle u e r = inr (delete e r).
Proof.
  apply reactions_never_empty.
  apply (reachable_no_empty strip_ascii elements), scene_reachable.
Defined.

Lemma typing_status_follows_policy_witness :
  let w := engine_run scene [(alice, Typing start_typing); (bob, Typing start_typing)] in
  let before := default ∅ (typing_users w !! HStr "Open Mic") in
  let after :=
    default ∅ (typing_users (engine_step w (carol, Typing start_typing))
               !! HStr "Open Mic") in
  ∃ msg,
    engine_effects w (carol, Typing start_typing)
    = [Emit (Ev_status msg "typing" (Some (VStr "Open Mic")) None)
         (Room (VStr "Open Mic"))]
    ∧ engine_outcome w (carol, Typing start_typing) = inr VNone
    ∧ after = (if truthy (VBool true) then before ∪ {["carol"]}
               else before ∖ {["carol"]})
    ∧ after ∖ {["carol"]} = before ∖ {["carol"]}
    ∧ status_policy (before ∖ {["carol"]}) msg.
Proof.
  intros w. subst w.
  apply (typing_status_follows_policy strip_ascii elements (λ X, reflexivity _)
           carol start_typing (VStr "Open Mic") (VBool true) (HStr "Open Mic") "carol");
    reflexivity.
Defined.

Lemma join_invalid_room_no_effect_witness :
  let data := VDict [("room", VStr "General")] in
  engine_step scene (alice, Join data) = scene
  ∧ engine_outcome scene (alice, Join data) = inr VNone
  ∧ emitted (engine_effects scene (alice, Join data)) = []
  ∧ only_logs (engine_effects scene (alice, Join data)) = true.
Proof.
  exact (join_invalid_room_no_effect strip_ascii elements alice
           (VDict [("room", VStr "General")]) (VStr "General") scene eq_refl eq_refl).
Defined.

Lemma history_indices_increasing_and_stable_witness :
  let k := HStr "Open Mic" in
  let m1 := {| m_msg := "hi"; m_username := "bob"; m_timestamp := "10:01";
               m_reactions := ∅ |} in
  let w' := engine_run (engine_step scene (bob, Message say_hi))
              [(carol, React_to_message thumbs_up)] in
  1%nat = length (history scene k)
  ∧ (∃ m', history w' k !! 1%nat = Some m' ∧ content m' = content m1)
  ∧ (history w' k !! 2%nat = None →
     is_Some (history (engine_step w' (alice, Message say_hi)) k !! 2%nat) →
     (1 < 2)%nat ∧ 2%nat = length (history w' k)).
Proof.
  apply (history_indices_increasing_and_stable strip_ascii elements scene
           (bob, Message say_hi) (alice, Message say_hi)
           [(carol, React_to_message thumbs_up)] (HStr "Open Mic") 1 2).
  - vm_compute. reflexivity.
  - vm_compute. reflexivity.
Defined.

Lemma private_message_unknown_target_witness :
  engine_step scene (alice, Message whisper_to_zed) = scene
  ∧ engine_outcome scene (alice, Message whisper_to_zed) = inr VNone
  ∧ emitted (engine_effects scene (alice, Message whisper_to_zed)) = []
  ∧ only_logs (engine_effects scene (alice, Message whisper_to_zed)) = true.
Proof.
  apply (private_message_unknown_target strip_ascii elements alice whisper_to_zed
           (VStr "zed") scene eq_refl eq_refl).
  vm_compute. reflexivity.
Defined.

Lemma disconnect_idempotent_witness :
  let w1 := engine_step scene (alice, Disconnect) in
  let w2 := engine_step w1 (alice, Disconnect) in
  engine_outcome scene (alice, Disconnect) = inr VNone
  ∧ engine_outcome w1 (alice, Disconnect) = inr VNone
  ∧ assoc (sid alice) (active_users w1) = None
  ∧ (∀ ud, assoc (sid alice) (active_users scene) = Some ud →
       ∃ l1 l2, roster scene = l1 ++ u_username ud :: l2 ∧ roster w1 = l1 ++ l2)
  ∧ w2 = w1
  ∧ roster w2 = roster w1
  ∧ engine_effects w1 (alice, Disconnect) = [].
Proof.
  apply (disconnect_idempotent strip_ascii elements alice scene).
  vm_compute. apply (bool_decide_unpack _). vm_compute. exact I.
Defined.

Lemma join_replays_recorded_history_witness :
  engine_outcome scene (bob, Join join_open_mic) = inr VNone
  ∧ engine_effects scene (bob, Join join_open_mic)
    = [ Join_room (sid bob) (VStr "Open Mic");
        Emit (Ev_status ("bob" +:+ " has joined the room.") "join"
                None (Some (now bob))) (Room (VStr "Open Mic")) ]
      ++ match chat_history scene !! HStr "Open Mic" with
         | Some messages =>
             [Emit (Ev_chat_history (VStr "Open Mic") messages) (Room (VStr (sid bob)))]
         | None => []
         end
      ++ [Log INFO "User joined room: " [A_str "bob"; A_val (VStr "Open Mic")]].
Proof.
  apply (join_replays_recorded_history strip_ascii elements bob join_open_mic
           "Open Mic" "bob"
           {| u_username := "bob"; u_connected_at := "10:01"; u_room := None |} scene
           eq_refl eq_refl).
  - apply (bool_decide_unpack _). vm_compute. exact I.
  - vm_compute. reflexivity.
Defined.

(** C9, as stated, fails. Alice connects and joins Open Mic before anyone
    has written there: the room is in the catalog, its history is empty,
    and the only event sent is the status for the room. No history event
    goes to Alice. *)
Lemma join_never_messaged_room_sends_no_history :
  let w := engine_run initial [(alice, Connect)] in
  py_in (VStr "Open Mic") CHAT_ROOMS = true
  ∧ history w (HStr "Open Mic") = []
  ∧ engine_outcome w (alice, Join join_open_mic) = inr VNone
  ∧ emitted (engine_effects w (alice, Join join_open_mic))
    = [ (Ev_status "alice has joined the room." "join" None (Some "10:00"),
         Room (VStr "Open Mic")) ].
Proof. vm_compute. by repeat split. Qed.

Lemma message_without_room_dropped_witness :
  let d := [("msg", VStr "hello")] in
  dict_get (VDict d) "room" (VStr "General") = inr (VStr "General")
  ∧ py_in (VStr "General") CHAT_ROOMS = false
  ∧ engine_step scene (alice, Message (VDict d)) = scene
  ∧ engine_outcome scene (alice, Message (VDict d)) = inr VNone
  ∧ emitted (engine_effects scene (alice, Message (VDict d))) = []
  ∧ only_logs (engine_effects scene (alice, Message (VDict d))) = true.
Proof.
  apply (message_without_room_dropped strip_ascii elements alice
           [("msg", VStr "hello")] scene eq_refl).
  discriminate.
Defined.

(** ** More of the theorems at work on the scenario *)

Lemma connect_registers_witness :
  assoc "c3" (active_users (engine_step scene (carol, Connect)))
  = Some {| u_username := "carol"; u_connected_at := "10:02"; u_room := None |}
  ∧ roster (engine_step scene (carol, Connect)) = roster scene ++ ["carol"].
Proof.
  destruct (connect_registers strip_ascii elements carol "carol" scene eq_refl)
    as (H1 & _ & H3 & _).
  split; [exact H1|]. apply H3. vm_compute. reflexivity.
Defined.

Lemma connect_disconnect_round_trip_witness :
  engine_step (engine_step scene (carol, Connect)) (carol, Disconnect) = scene.
Proof.
  apply (connect_disconnect_round_trip strip_ascii elements carol carol "carol" scene);
    vm_compute; reflexivity.
Defined.

Lemma disconnect_sends_roster_only_witness :
  typing_users (engine_step scene (alice, Disconnect)) = typing_users scene
  ∧ chat_history (engine_step scene (alice, Disconnect)) = chat_history scene.
Proof.
  assert (assoc (sid alice) (active_users scene)
          = Some {| u_username := "alice"; u_connected_at := "10:00";
                    u_room := Some (VStr "Open Mic") |}) as Hud
    by (vm_compute; reflexivity).
  destruct (disconnect_sends_roster_only strip_ascii elements alice _ scene Hud)
    as (_ & _ & H3 & H4).
  split; [exact H3|exact H4].
Defined.

Lemma join_records_room_witness :
  assoc (sid bob) (active_users (engine_step scene (bob, Join join_open_mic)))
  = Some {| u_username := "bob"; u_connected_at := "10:01";
            u_room := Some (VStr "Open Mic") |}
  ∧ roster (engine_step scene (bob, Join join_open_mic)) = roster scene.
Proof.
  assert (assoc (sid bob) (active_users scene)
          = Some {| u_username := "bob"; u_connected_at := "10:01"; u_room := None |})
    as Hud by (vm_compute; reflexivity).
  assert ("Open Mic" ∈ CHAT_ROOMS) as Hr
    by (apply (bool_decide_unpack _); vm_compute; exact I).
  destruct (join_records_room strip_ascii elements bob join_open_mic "Open Mic" "bob"
              _ scene eq_refl eq_refl Hr Hud) as (H1 & _ & H3 & _).
  split; [exact H1|exact H3].
Defined.

Lemma join_without_entry_joins_transport_room_only_witness :
  engine_step scene (carol, Join join_open_mic) = scene
  ∧ engine_outcome scene (carol, Join join_open_mic) = inr VNone
  ∧ engine_effects scene (carol, Join join_open_mic)
    = [ Join_room (sid carol) (VStr "Open Mic");
        Log ERROR "Join room error: " [A_exn KeyError] ].
Proof.
  apply (join_without_entry_joins_transport_room_only strip_ascii elements carol
           join_open_mic "Open Mic" "carol" scene eq_refl eq_refl).
  - apply (bool_decide_unpack _). vm_compute. exact I.
  - vm_compute. reflexivity.
Defined.

Lemma leave_any_room_witness :
  let data := VDict [("room", VStr "Nowhere")] in
  engine_effects scene (alice, Leave data)
  = [ Leave_room (sid alice) (VStr "Nowhere");
      Emit (Ev_status ("alice" +:+ " has left the room.") "leave"
              None (Some (now alice))) (Room (VStr "Nowhere"));
      Log INFO "User left room: " [A_str "alice"; A_val (VStr "Nowhere")] ]
  ∧ engine_outcome scene (alice, Leave data) = inr VNone.
Proof.
  intros data.
  destruct (leave_any_room strip_ascii elements alice data "Nowhere" "alice" scene
              eq_refl eq_refl) as (H1 & H2 & _).
  split; [exact H1|exact H2].
Defined.

Lemma join_leave_round_trip_witness :
  engine_step (engine_step scene (bob, Join join_open_mic)) (bob, Leave join_open_mic)
  = scene.
Proof.
  apply (join_leave_round_trip strip_ascii elements bob join_open_mic "Open Mic" "bob"
           {| u_username := "bob"; u_connected_at := "10:01"; u_room := None |} scene
           eq_refl eq_refl).
  - apply (bool_decide_unpack _). vm_compute. exact I.
  - vm_compute. reflexivity.
  - reflexivity.
Defined.

Lemma room_message_appended_and_sent_witness :
  let d := [("room", VStr "Open Mic"); ("msg", VStr " hi ")] in
  history (engine_step scene (bob, Message (VDict d))) (HStr "Open Mic")
  = history scene (HStr "Open Mic")
    ++ [ {| m_msg := strip_ascii " hi "; m_username := "bob";
            m_timestamp := now bob; m_reactions := ∅ |} ]
  ∧ emitted (engine_effects scene (bob, Message (VDict d)))
    = [(Ev_message (strip_ascii " hi ") "bob" (VStr "Open Mic") (now bob) ∅,
        Room (VStr "Open Mic"))].
Proof.
  intros d.
  assert ("Open Mic" ∈ CHAT_ROOMS) as Hr
    by (apply (bool_decide_unpack _); vm_compute; exact I).
  assert (dict_get (VDict d) "type" (VStr "message") ≠ inr (VStr "private")) as Hty
    by discriminate.
  assert (strip_ascii " hi " ≠ "") as Hne by discriminate.
  destruct (room_message_appended_and_sent strip_ascii elements bob d "Open Mic" " hi "
              "bob" scene eq_refl eq_refl Hr Hty eq_refl Hne) as (H1 & _ & H3 & _).
  split; [exact H1|exact H3].
Defined.

Lemma blank_message_dropped_silently_witness :
  let d := [("room", VStr "Open Mic"); ("msg", VStr "   ")] in
  engine_step scene (bob, Message (VDict d)) = scene
  ∧ engine_outcome scene (bob, Message (VDict d)) = inr VNone
  ∧ engine_effects scene (bob, Message (VDict d)) = [].
Proof.
  exact (blank_message_dropped_silently strip_ascii elements bob
           [("room", VStr "Open Mic"); ("msg", VStr "   ")] "   " "bob" scene
           eq_refl eq_refl eq_refl).
Defined.

Lemma private_message_delivered_to_first_connection_witness :
  let data := VDict [("type", VStr "private"); ("target", VStr "bob");
                     ("msg", VStr "psst")] in
  engine_step scene (alice, Message data) = scene
  ∧ engine_outcome scene (alice, Message data) = inr VNone
  ∧ emitted (engine_effects scene (alice, Message data))
    = [(Ev_private_message (strip_ascii "psst") "alice" (VStr "bob") (now alice),
        Room (VStr "c2"))].
Proof.
  intros data.
  apply (private_message_delivered_to_first_connection strip_ascii elements alice data
           "psst" "bob" "alice" "c2"
           {| u_username := "bob"; u_connected_at := "10:01"; u_room := None |}
           [("c1", {| u_username := "alice"; u_connected_at := "10:00";
                      u_room := Some (VStr "Open Mic") |})] [] scene);
    [ reflexivity | reflexivity | reflexivity | vm_compute; discriminate
    | reflexivity | discriminate | vm_compute; reflexivity | reflexivity
    | apply List.Forall_cons; [discriminate|apply List.Forall_nil] ].
Defined.

Lemma history_sent_to_joiner_only_witness :
  (∃ data, Join join_open_mic = Join data)
  ∧ Room (VStr "c2") = Room (VStr (sid bob))
  ∧ ∃ k, py_hash (VStr "Open Mic") = inr k
         ∧ chat_history scene !! k = Some (history scene (HStr "Open Mic")).
Proof.
  apply (history_sent_to_joiner_only strip_ascii elements scene bob
           (Join join_open_mic) (VStr "Open Mic") (history scene (HStr "Open Mic"))
           (Room (VStr "c2"))).
  vm_compute. do 2 (apply elem_of_cons; right). apply elem_of_cons. left. reflexivity.
Defined.

Lemma private_message_sent_to_target_only_witness :
  let data := VDict [("type", VStr "private"); ("target", VStr "bob");
                     ("msg", VStr "psst")] in
  (∃ data', Message data = Message data')
  ∧ current_user alice = Some "alice"
  ∧ "10:00" = now alice
  ∧ "psst" ≠ ""
  ∧ ∃ s ud, Room (VStr "c2") = Room (VStr s)
            ∧ (s, ud) ∈ active_users scene
            ∧ VStr "bob" = VStr (u_username ud).
Proof.
  intros data.
  apply (private_message_sent_to_target_only strip_ascii elements scene alice
           (Message data) "psst" "alice" "10:00" (VStr "bob") (Room (VStr "c2"))).
  vm_compute. apply elem_of_cons. left. reflexivity.
Defined.

Lemma room_message_sent_as_stored_witness :
  (∃ data, Message say_hi = Message data)
  ∧ current_user bob = Some "bob"
  ∧ "10:01" = now bob
  ∧ "hi" ≠ ""
  ∧ (∅ : gmap hkey (list string)) = ∅
  ∧ Room (VStr "Open Mic") = Room (VStr "Open Mic")
  ∧ py_in (VStr "Open Mic") CHAT_ROOMS = true
  ∧ ∃ k, py_hash (VStr "Open Mic") = inr k
         ∧ last (history (engine_step scene (bob, Message say_hi)) k)
           = Some {| m_msg := "hi"; m_username := "bob"; m_timestamp := "10:01";
                     m_reactions := ∅ |}.
Proof.
  apply (room_message_sent_as_stored strip_ascii elements scene bob (Message say_hi)
           "hi" "bob" "10:01" (VStr "Open Mic") ∅ (Room (VStr "Open Mic"))).
  vm_compute. apply elem_of_cons. left. reflexivity.
Defined.

Lemma reaction_out_of_range_dropped_silently_witness :
  let data := VDict [("room", VStr "Open Mic"); ("index", VInt 5);
                     ("emoji", VStr "+1")] in
  engine_step scene (bob, React_to_message data) = scene
  ∧ engine_outcome scene (bob, React_to_message data) = inr VNone
  ∧ engine_effects scene (bob, React_to_message data) = [].
Proof.
  intros data.
  apply (reaction_out_of_range_dropped_silently strip_ascii elements bob data "bob"
           (HStr "Open Mic") (HStr "+1") 5 scene eq_refl).
  vm_compute. intros [_ H]. discriminate H.
Defined.

Lemma reaction_stored_and_sent_witness :
  ∃ r, toggle "bob" (HStr "+1") {[ HStr "+1" := ["carol"] ]} = inr r
       ∧ engine_effects scene (bob, React_to_message thumbs_up)
         = [Emit (Ev_reaction_update (VInt 0) r) (Room (VStr "Open Mic"))].
Proof.
  assert (history scene (HStr "Open Mic") !! Z.to_nat 0
          = Some {| m_msg := "hi"; m_username := "alice"; m_timestamp := "10:00";
                    m_reactions := {[ HStr "+1" := ["carol"] ]} |}) as Hm
    by (vm_compute; reflexivity).
  destruct (reaction_stored_and_sent strip_ascii elements bob thumbs_up
              (VStr "Open Mic") (VInt 0) "bob" (HStr "Open Mic") (HStr "+1") 0 _ scene
              eq_refl eq_refl eq_refl (Z.le_refl 0) Hm)
    as (r & H1 & _ & _ & H4 & _).
  exists r. split; [exact H1|exact H4].
Defined.

Lemma react_then_unreact_restores_state_witness :
  engine_step (engine_step scene (bob, React_to_message thumbs_up))
    (bob, React_to_message thumbs_up) = scene.
Proof.
  apply (react_then_unreact_restores_state strip_ascii elements bob thumbs_up "bob"
           (HStr "Open Mic") (HStr "+1") 0 scene scene_reachable eq_refl).
  apply (bool_decide_unpack _). vm_compute. exact I.
Defined.

Lemma reachable_reactions_well_formed_witness :
  ["carol"] ≠ [] ∧ NoDup ["carol"].
Proof.
  apply (reachable_reactions_well_formed strip_ascii elements scene (HStr "Open Mic")
           (HStr "+1") 0
           {| m_msg := "hi"; m_username := "alice"; m_timestamp := "10:00";
              m_reactions := {[ HStr "+1" := ["carol"] ]} |} ["carol"] scene_reachable).
  - vm_compute. reflexivity.
  - vm_compute. reflexivity.
Defined.

Lemma event_changes_one_reaction_list_at_most_witness :
  ∃ m', history (engine_step scene (bob, React_to_message thumbs_up)) (HStr "Open Mic")
          !! 0%nat = Some m'
        ∧ content m' = ("hi", "alice", "10:00").
Proof.
  assert (history scene (HStr "Open Mic") !! 0%nat
          = Some {| m_msg := "hi"; m_username := "alice"; m_timestamp := "10:00";
                    m_reactions := {[ HStr "+1" := ["carol"] ]} |}) as Hm
    by (vm_compute; reflexivity).
  destruct (event_changes_one_reaction_list_at_most strip_ascii elements scene bob
              (React_to_message thumbs_up) (HStr "Open Mic") 0 _ Hm)
    as (m' & H1 & H2 & _).
  exists m'. split; [exact H1|exact H2].
Defined.


Lemma typing_start_then_stop_witness :
  let stop := VDict [("room", VStr "Open Mic"); ("typing", VBool false)] in
  let w1 := engine_step scene (alice, Typing start_typing) in
  let w2 := engine_step w1 (alice, Typing stop) in
  "alice" ∈ default ∅ (typing_users w1 !! HStr "Open Mic")
  ∧ default ∅ (typing_users w2 !! HStr "Open Mic")
    = default ∅ (typing_users scene !! HStr "Open Mic") ∖ {["alice"]}
  ∧ ∀ k', k' ≠ HStr "Open Mic" → typing_users w2 !! k' = typing_users scene !! k'.
Proof.
  intros stop.
  apply (typing_start_then_stop strip_ascii elements alice start_typing stop
           (VStr "Open Mic") (VBool true) (VBool false) (HStr "Open Mic") "alice" scene);
    reflexivity.
Defined.

Lemma typing_fails_exactly_on_malformed_requests_witness :
  engine_step scene (alice, Typing (VDict [("typing", VBool true)])) = scene
  ∧ engine_effects scene (alice, Typing (VDict [("typing", VBool true)])) = [].
Proof.
  destruct (typing_fails_exactly_on_malformed_requests strip_ascii elements
              (λ X, reflexivity _) alice (VDict [("typing", VBool true)]) scene)
    as [_ H].
  apply H. exists KeyError. reflexivity.
Defined.

Lemma malformed_request_dropped_witness :
  engine_step scene (alice, Join (VStr "Open Mic")) = scene
  ∧ engine_outcome scene (alice, Join (VStr "Open Mic")) = inr VNone
  ∧ emitted (engine_effects scene (alice, Join (VStr "Open Mic"))) = []
  ∧ only_logs (engine_effects scene (alice, Join (VStr "Open Mic"))) = true.
Proof.
  apply (malformed_request_dropped strip_ascii elements alice (VStr "Open Mic") scene).
  - right. intros d. discriminate.
  - left. reflexivity.
Defined.

Lemma reachable_rooms_in_catalog_witness :
  py_in (VStr "Open Mic") CHAT_ROOMS = true.
Proof.
  apply (reachable_rooms_in_catalog strip_ascii elements scene "c1"
           {| u_username := "alice"; u_connected_at := "10:00";
              u_room := Some (VStr "Open Mic") |} (VStr "Open Mic") scene_reachable).
  - vm_compute. apply elem_of_cons. left. reflexivity.
  - reflexivity.
Defined.

Lemma reachable_histories_well_formed_witness :
  (∃ r, HStr "Open Mic" = HStr r ∧ r ∈ CHAT_ROOMS)
  ∧ history scene (HStr "Open Mic") ≠ []
  ∧ Forall (λ m, m_msg m ≠ "") (history scene (HStr "Open Mic")).
Proof.
  apply (reachable_histories_well_formed strip_ascii elements scene (HStr "Open Mic")
           (history scene (HStr "Open Mic")) scene_reachable).
  vm_compute. reflexivity.
Defined.

Lemma plain_bcrypt_sound : bcrypt_sound plain_bcrypt.
Proof.
  intros salt password h [= <-]. simpl. by apply bool_decide_eq_true.
Qed.

Lemma signup_keeps_accounts_unique_witness :
  let db' := (signup strip_ascii plain_bcrypt "salt" signup_request []).1.2 in
  NoDup (map acc_username db')
  ∧ NoDup (map acc_email db')
  ∧ NoDup (map acc_id db').
Proof.
  intros db'.
  destruct (signup_keeps_accounts_unique strip_ascii plain_bcrypt "salt" signup_request []
              NoDup_nil_2 NoDup_nil_2 NoDup_nil_2) as (H1 & H2 & H3 & _).
  split_and!; [exact H1|exact H2|exact H3].
Defined.

Lemma login_after_signup_witness :
  let db' := (signup strip_ascii plain_bcrypt "salt" signup_request []).1.2 in
  ∃ user, login strip_ascii plain_bcrypt login_request db'
          = (inr (Redirect "index"), Some user, [])
          ∧ last db' = Some user
          ∧ ∃ raw_username, form_get signup_request "username" = inr raw_username
                            ∧ acc_username user = strip_ascii raw_username.
Proof.
  intros db'.
  apply (login_after_signup strip_ascii plain_bcrypt "salt" signup_request login_request
           [] db' (signup strip_ascii plain_bcrypt "salt" signup_request []).2
           plain_bcrypt_sound);
    reflexivity.
Defined.

Lemma login_needs_matching_account_witness :
  let db := (signup strip_ascii plain_bcrypt "salt" signup_request []).1.2 in
  let user := {| acc_id := 1; acc_username := "dana"; acc_email := "dana@example.org";
                 acc_password_hash := "$s3cret" |} in
  inr (Redirect "index") = inr (Redirect "index") :> res response
  ∧ ([] : list string) = []
  ∧ method login_request = "POST"
  ∧ user ∈ db
  ∧ ∃ raw_email password,
      form_get login_request "email" = inr raw_email
      ∧ form_get login_request "password" = inr password
      ∧ first_by_email (strip_ascii raw_email) db = Some user
      ∧ acc_email user = strip_ascii raw_email
      ∧ check_password_hash plain_bcrypt (acc_password_hash user) password = true.
Proof.
  intros db user.
  apply (login_needs_matching_account strip_ascii plain_bcrypt login_request db
           (inr (Redirect "index")) user []).
  reflexivity.
Defined.
